(** * satellite-imagery-aesthetics: the taxonomy server, verified

    A shallow embedding of [src/satellite_imagery_aesthetics/server.py].

    The server loads one YAML document (the "olog") into four module-level
    dictionaries and exposes seven tools over them.  Every tool returns a
    Python [str]: either [json.dumps] of a dictionary or a rendered text
    block.

    Conventions of the embedding:
    - a Python [str] is a [string] of ASCII code points (below 128); on
      those [str.lower] is the mapping of 'A'..'Z' to 'a'..'z' and
      [str.strip] removes the ASCII white space.  Code points outside
      ASCII, where [str.lower] follows the Unicode case mapping, are not
      modelled: a statement that depends on what lower-casing does to a
      character is made for texts that are [ascii_only];
    - a Python [dict] is an insertion-ordered association list;
    - the records of the data file are Rocq records (their shape is the one
      the test-suite checks: every field present, texts are [str], the
      characteristics count is an [int]);
    - the four module globals are the state of a small state-and-exception
      monad; a subscript [d[k]] on a missing key raises [KeyError];
    - [json.dumps v] is kept as the value [v] it serialises ([Dumps v]);
      the [indent] argument only changes white space and is dropped. *)

From Stdlib Require Import String Ascii List ZArith Bool Arith Lia.
Import ListNotations.
Local Open Scope list_scope.
Local Open Scope string_scope.

(** ** Strings *)

Definition newline : string := String (ascii_of_nat 10) EmptyString.
Definition dquote : string := String (ascii_of_nat 34) EmptyString.

Fixpoint map_string (f : ascii -> ascii) (s : string) : string :=
  match s with
  | EmptyString => EmptyString
  | String c s' => String (f c) (map_string f s')
  end.

(** [str.lower] on one ASCII code point: 'A'..'Z' move to 'a'..'z'.  A
    character from 128 on stands for no Python character and is left as it
    is; it is not a model of the Unicode case mapping. *)
Definition lower_char (c : ascii) : ascii :=
  let n := nat_of_ascii c in
  if ((65 <=? n) && (n <=? 90))%nat then ascii_of_nat (n + 32) else c.

(** [s.lower()] *)
Definition lower (s : string) : string := map_string lower_char s.

(** [s.replace(old, new)] where [old] and [new] are one character long,
    as they are at every call site of the server. *)
Definition replace (old new : ascii) (s : string) : string :=
  map_string (fun c => if Ascii.eqb c old then new else c) s.

(** The expression [x.lower().replace(" ", "_")] that opens every tool
    taking an identifier. *)
Definition normalize_key (s : string) : string :=
  replace " " "_" (lower s).

(** White space as [str.strip()] sees it among ASCII characters:
    TAB, LF, VT, FF, CR, FS, GS, RS, US and the space. *)
Definition is_space (c : ascii) : bool :=
  let n := nat_of_ascii c in
  (((9 <=? n) && (n <=? 13)) || ((28 <=? n) && (n <=? 32)))%nat.

Fixpoint lstrip (s : string) : string :=
  match s with
  | EmptyString => EmptyString
  | String c s' => if is_space c then lstrip s' else s
  end.

Fixpoint rstrip (s : string) : string :=
  match s with
  | EmptyString => EmptyString
  | String c s' =>
      match rstrip s' with
      | EmptyString => if is_space c then EmptyString else String c EmptyString
      | r => String c r
      end
  end.

(** [s.strip()] *)
Definition strip (s : string) : string := rstrip (lstrip s).

(** [s.split("\n")] *)
Fixpoint split_lines (s : string) : list string :=
  match s with
  | EmptyString => [EmptyString]
  | String c s' =>
      if Ascii.eqb c (ascii_of_nat 10) then EmptyString :: split_lines s'
      else match split_lines s' with
           | [] => [String c EmptyString]
           | l :: ls => String c l :: ls
           end
  end.

(** ** Python dictionaries and lists *)

Definition dict (V : Type) : Type := list (string * V).

Section Dict.
Context {V : Type}.

(** [list(d.keys())] *)
Definition dict_keys (d : dict V) : list string := map fst d.

(** [d.items()] *)
Definition dict_items (d : dict V) : list (string * V) := d.

(** [d.get(k)] *)
Fixpoint dict_get (d : dict V) (k : string) : option V :=
  match d with
  | [] => None
  | (k', v) :: d' => if String.eqb k' k then Some v else dict_get d' k
  end.

(** [k in d] *)
Definition dict_mem (k : string) (d : dict V) : bool :=
  match dict_get d k with Some _ => true | None => false end.

(** [d[k] = v]: an existing key keeps its position, a new one goes last. *)
Fixpoint dict_set (d : dict V) (k : string) (v : V) : dict V :=
  match d with
  | [] => [(k, v)]
  | (k', v') :: d' =>
      if String.eqb k' k then (k', v) :: d' else (k', v') :: dict_set d' k v
  end.

(** A dictionary display [{k1: v1, ...}] or a comprehension
    [{k: v for k, v in items}]: the items are inserted left to right. *)
Definition dict_of_items (items : list (string * V)) : dict V :=
  fold_left (fun d kv => dict_set d (fst kv) (snd kv)) items [].
End Dict.

(** [l.append(x)] *)
Definition list_append {A : Type} (l : list A) (x : A) : list A :=
  (l ++ [x])%list.

(** [l[:stop]] for an integer [stop], with Python's handling of negative
    and oversized bounds. *)
Definition slice_to {A : Type} (l : list A) (stop : Z) : list A :=
  let len := Z.of_nat (length l) in
  let stop' := if (stop <? 0)%Z then Z.max 0 (stop + len) else Z.min stop len in
  firstn (Z.to_nat stop') l.

(** ** JSON values handed to [json.dumps] *)

#[local] Set Warnings "-register-all".

Inductive json : Type :=
| JStr (s : string)
| JInt (z : Z)
| JList (l : list json)
| JDict (d : dict json).

(** A dictionary display as a JSON object. *)
Definition obj (items : list (string * json)) : json :=
  JDict (dict_of_items items).

(** Reading a member of a JSON object. *)
Definition member (k : string) (j : json) : option json :=
  match j with
  | JDict d => dict_get d k
  | _ => None
  end.

(** The keys of a JSON object. *)
Definition members (j : json) : list string :=
  match j with
  | JDict d => dict_keys d
  | _ => []
  end.

(** ** The records of the data file

    [ologs/imagery_profiles.yaml] is data, not code; the shape of its
    records is the one the test-suite asserts.  The order in which a
    record's fields are written to JSON is the order of the data file;
    the order used here is the one of [tests/test_server.py]. *)

Module ImageryProfile.
Record t : Type := Build {
  name : string;
  structure : string;
  material : string;
  color : string;
  texture : string;
  composition : string;
  style : string;
  quality : string;
  mood : string;
  examples : string
}.

Definition to_json (p : t) : json :=
  obj [("name", JStr (name p)); ("structure", JStr (structure p));
       ("material", JStr (material p)); ("color", JStr (color p));
       ("texture", JStr (texture p)); ("composition", JStr (composition p));
       ("style", JStr (style p)); ("quality", JStr (quality p));
       ("mood", JStr (mood p)); ("examples", JStr (examples p))].
End ImageryProfile.

Module AltitudePerspective.
Record t : Type := Build {
  description : string;
  scale : string;
  context : string
}.

Definition to_json (a : t) : json :=
  obj [("description", JStr (description a)); ("scale", JStr (scale a));
       ("context", JStr (context a))].
End AltitudePerspective.

Module FeatureEmphasis.
Record t : Type := Build {
  focus : string
}.

Definition to_json (f : t) : json := obj [("focus", JStr (focus f))].
End FeatureEmphasis.

Module AestheticStrength.
Record t : Type := Build {
  characteristics : Z;
  approach : string
}.

Definition to_json (s : t) : json :=
  obj [("characteristics", JInt (characteristics s));
       ("approach", JStr (approach s))].
End AestheticStrength.

(** The loaded document and its four top-level tables (lines 9-16). *)
Record olog : Type := Olog {
  imagery_profiles : dict ImageryProfile.t;
  altitude_perspectives : dict AltitudePerspective.t;
  feature_emphasis : dict FeatureEmphasis.t;
  aesthetic_strength : dict AestheticStrength.t
}.

(** ** The monad of the tools

    A tool runs against the module globals and either returns a value or
    raises [KeyError]; the globals it leaves behind are part of the
    outcome, so that a mutation would be visible. *)

Inductive result (A : Type) : Type :=
| Ok (a : A)
| KeyError (k : string).
Arguments Ok {A} a.
Arguments KeyError {A} k.

Definition M (A : Type) : Type := olog -> result A * olog.

Definition ret {A : Type} (a : A) : M A := fun g => (Ok a, g).

Definition raise {A : Type} (k : string) : M A := fun g => (KeyError k, g).

Definition bind {A B : Type} (m : M A) (f : A -> M B) : M B :=
  fun g =>
    match m g with
    | (Ok a, g') => f a g'
    | (KeyError k, g') => (KeyError k, g')
    end.

Notation "x <- m ;; k" := (bind m (fun x => k))
  (at level 61, m at next level, right associativity).

(** Reading a module global. *)
Definition global {T : Type} (table : olog -> T) : M T :=
  fun g => (Ok (table g), g).

(** [list(table.keys())] *)
Definition keys {V : Type} (table : olog -> dict V) : M (list string) :=
  d <- global table ;; ret (dict_keys d).

(** [table.items()] *)
Definition items {V : Type} (table : olog -> dict V) : M (list (string * V)) :=
  d <- global table ;; ret (dict_items d).

(** [k in table] *)
Definition contains {V : Type} (k : string) (table : olog -> dict V) : M bool :=
  d <- global table ;; ret (dict_mem k d).

(** [table[k]] *)
Definition subscript {V : Type} (table : olog -> dict V) (k : string) : M V :=
  d <- global table ;;
  match dict_get d k with
  | Some v => ret v
  | None => raise k
  end.

(** [table.get(k)] *)
Definition get {V : Type} (table : olog -> dict V) (k : string) : M (option V) :=
  d <- global table ;; ret (dict_get d k).

(** What a tool hands back: [json.dumps] of a value, or plain text. *)
Inductive output : Type :=
| Dumps (j : json)
| Text (s : string).

(** A dictionary of records as a JSON object of objects. *)
Definition json_of_dict {V : Type} (f : V -> json) (d : dict V) : json :=
  JDict (map (fun kv => (fst kv, f (snd kv))) d).

(** ** The tools of [server.py] *)

(** Lines 19-26. *)
Definition list_imagery_types : M output :=
  types <- keys imagery_profiles ;;
  ret (Dumps (obj [("imagery_types", JList (map JStr types));
                   ("count", JInt (Z.of_nat (length types)))])).

(** Lines 29-44. *)
Definition get_imagery_profile (imagery_type : string) : M output :=
  let imagery_type_normalized := normalize_key imagery_type in
  known <- contains imagery_type_normalized imagery_profiles ;;
  if negb known then
    available <- keys imagery_profiles ;;
    ret (Dumps (obj [("error", JStr ("Unknown imagery type: " ++ imagery_type));
                     ("available", JList (map JStr available))]))
  else
    profile <- subscript imagery_profiles imagery_type_normalized ;;
    ret (Dumps (obj [("imagery_type", JStr imagery_type_normalized);
                     ("profile", ImageryProfile.to_json profile)])).

(** Lines 47-55. *)
Definition list_altitude_perspectives : M output :=
  perspectives <- keys altitude_perspectives ;;
  kvs <- items altitude_perspectives ;;
  let details := dict_of_items kvs in
  ret (Dumps (obj [("perspectives", JList (map JStr perspectives));
                   ("details", json_of_dict AltitudePerspective.to_json details)])).

(** Lines 58-66. *)
Definition list_feature_emphasis_options : M output :=
  options <- keys feature_emphasis ;;
  kvs <- items feature_emphasis ;;
  let details := dict_of_items kvs in
  ret (Dumps (obj [("options", JList (map JStr options));
                   ("details", json_of_dict FeatureEmphasis.to_json details)])).

(** Lines 69-77. *)
Definition list_aesthetic_strengths : M output :=
  strengths <- keys aesthetic_strength ;;
  kvs <- items aesthetic_strength ;;
  let details := dict_of_items kvs in
  ret (Dumps (obj [("strengths", JList (map JStr strengths));
                   ("details", json_of_dict AestheticStrength.to_json details)])).

(** The list of lines 111-120: the eight characteristics of a profile,
    in their declared order. *)
Definition all_characteristics_of (profile : ImageryProfile.t)
  : list (string * string) :=
  [("structure", ImageryProfile.structure profile);
   ("material", ImageryProfile.material profile);
   ("color", ImageryProfile.color profile);
   ("texture", ImageryProfile.texture profile);
   ("composition", ImageryProfile.composition profile);
   ("style", ImageryProfile.style profile);
   ("quality", ImageryProfile.quality profile);
   ("mood", ImageryProfile.mood profile)].

Definition output_format : string :=
  "60-80 words, natural sentence flow, vivid artistic language, ending with 'highly detailed, 8k, satellite imagery aesthetic'".

(** Lines 109-151: the dictionary [mapped_parameters], as a function of
    the normalized identifiers and of the four records looked up. *)
Definition mapped_parameters
    (imagery_type_normalized altitude_normalized
     feature_normalized strength_normalized : string)
    (profile : ImageryProfile.t) (altitude_data : AltitudePerspective.t)
    (feature_data : FeatureEmphasis.t) (strength_data : AestheticStrength.t)
  : json :=
  (* Determine which characteristics to weave in *)
  let characteristic_count := AestheticStrength.characteristics strength_data in
  let all_characteristics := all_characteristics_of profile in
  (* Select top N characteristics based on strength *)
  let selected_characteristics :=
    slice_to all_characteristics characteristic_count in
  obj [("imagery_type", JStr imagery_type_normalized);
       ("profile_name", JStr (ImageryProfile.name profile));
       ("altitude_perspective",
         obj [("type", JStr altitude_normalized);
              ("description",
                JStr (AltitudePerspective.description altitude_data));
              ("scale", JStr (AltitudePerspective.scale altitude_data));
              ("context", JStr (AltitudePerspective.context altitude_data))]);
       ("feature_emphasis",
         obj [("type", JStr feature_normalized);
              ("focus", JStr (FeatureEmphasis.focus feature_data))]);
       ("aesthetic_strength",
         obj [("type", JStr strength_normalized);
              ("approach", JStr (AestheticStrength.approach strength_data));
              ("characteristic_count", JInt characteristic_count)]);
       ("selected_characteristics",
         json_of_dict JStr (dict_of_items selected_characteristics));
       ("all_available_characteristics",
         json_of_dict JStr (dict_of_items all_characteristics));
       ("examples", JStr (ImageryProfile.examples profile));
       ("output_format", JStr output_format)].

(** Lines 80-153. *)
Definition map_satellite_parameters
    (imagery_type altitude feature_emphasis_type strength : string) : M output :=
  let imagery_type_normalized := normalize_key imagery_type in
  let altitude_normalized := normalize_key altitude in
  let feature_normalized := normalize_key feature_emphasis_type in
  let strength_normalized := normalize_key strength in
  (* Validate all inputs *)
  let errors : list string := [] in
  known <- contains imagery_type_normalized imagery_profiles ;;
  let errors :=
    if negb known
    then list_append errors ("Unknown imagery type: " ++ imagery_type)
    else errors in
  known <- contains altitude_normalized altitude_perspectives ;;
  let errors :=
    if negb known
    then list_append errors ("Unknown altitude: " ++ altitude)
    else errors in
  known <- contains feature_normalized feature_emphasis ;;
  let errors :=
    if negb known
    then list_append errors ("Unknown feature emphasis: " ++ feature_emphasis_type)
    else errors in
  known <- contains strength_normalized aesthetic_strength ;;
  let errors :=
    if negb known
    then list_append errors ("Unknown aesthetic strength: " ++ strength)
    else errors in
  match errors with
  | _ :: _ => ret (Dumps (obj [("errors", JList (map JStr errors))]))
  | [] =>
    (* Build semantic bridge *)
    profile <- subscript imagery_profiles imagery_type_normalized ;;
    altitude_data <- subscript altitude_perspectives altitude_normalized ;;
    feature_data <- subscript feature_emphasis feature_normalized ;;
    strength_data <- subscript aesthetic_strength strength_normalized ;;
    ret (Dumps (mapped_parameters
                  imagery_type_normalized altitude_normalized
                  feature_normalized strength_normalized
                  profile altitude_data feature_data strength_data))
  end.

(** [x.get(field, 'Unknown') if x else 'Unknown'], for [x] the outcome of
    [table.get(key)].  A record of the data file is a non-empty dictionary
    that has the field asked for, so the text is the field when the key
    was found and ['Unknown'] otherwise. *)
Definition field_or_unknown {V : Type} (field : V -> string) (x : option V)
  : string :=
  match x with
  | Some v => field v
  | None => "Unknown"
  end.

(** The f-string of lines 173-194 between its first and its last line
    break. *)
Definition guidance_body
    (profile : ImageryProfile.t)
    (altitude_data : option AltitudePerspective.t)
    (feature_data : option FeatureEmphasis.t)
    (strength_data : option AestheticStrength.t) : string :=
  "SATELLITE IMAGERY ENHANCEMENT GUIDANCE" ++ newline ++
  newline ++
  "Imagery Type: " ++ ImageryProfile.name profile ++ newline ++
  "Altitude Perspective: "
    ++ field_or_unknown AltitudePerspective.description altitude_data
    ++ newline ++
  "Feature Emphasis: "
    ++ field_or_unknown FeatureEmphasis.focus feature_data ++ newline ++
  "Aesthetic Strength: "
    ++ field_or_unknown AestheticStrength.approach strength_data ++ newline ++
  newline ++
  "Key Visual Elements:" ++ newline ++
  "- Colors: " ++ ImageryProfile.color profile ++ newline ++
  "- Textures: " ++ ImageryProfile.texture profile ++ newline ++
  "- Mood: " ++ ImageryProfile.mood profile ++ newline ++
  newline ++
  "Examples to draw from: " ++ ImageryProfile.examples profile ++ newline ++
  newline ++
  "Remember:" ++ newline ++
  "1. Preserve the user's core concept completely" ++ newline ++
  "2. Use vivid, artistic language" ++ newline ++
  "3. Emphasize HOW it looks (colors, patterns, perspective), not WHAT it is"
    ++ newline ++
  "4. End with " ++ dquote ++
    "highly detailed, 8k, satellite imagery aesthetic" ++ dquote ++ newline ++
  "5. Never add subjects the user didn't request".

(** Lines 156-196.  The f-string opens with a line break after the
    triple quote and closes with one before it. *)
Definition get_enhancement_guidance
    (imagery_type altitude feature_emphasis_type strength : string) : M output :=
  let imagery_type_normalized := normalize_key imagery_type in
  let altitude_normalized := normalize_key altitude in
  let feature_normalized := normalize_key feature_emphasis_type in
  let strength_normalized := normalize_key strength in
  known <- contains imagery_type_normalized imagery_profiles ;;
  if negb known then
    ret (Dumps (obj [("error", JStr ("Unknown imagery type: " ++ imagery_type))]))
  else
    profile <- subscript imagery_profiles imagery_type_normalized ;;
    altitude_data <- get altitude_perspectives altitude_normalized ;;
    feature_data <- get feature_emphasis feature_normalized ;;
    strength_data <- get aesthetic_strength strength_normalized ;;
    let guidance :=
      newline
      ++ guidance_body profile altitude_data feature_data strength_data
      ++ newline in
    ret (Text (strip guidance)).

(** ** The server as a whole: one request, one response *)

Inductive call : Type :=
| ListImageryTypes
| GetImageryProfile (imagery_type : string)
| ListAltitudePerspectives
| ListFeatureEmphasisOptions
| ListAestheticStrengths
| MapSatelliteParameters
    (imagery_type altitude feature_emphasis_type strength : string)
| GetEnhancementGuidance
    (imagery_type altitude feature_emphasis_type strength : string).

Definition dispatch (c : call) : M output :=
  match c with
  | ListImageryTypes => list_imagery_types
  | GetImageryProfile t => get_imagery_profile t
  | ListAltitudePerspectives => list_altitude_perspectives
  | ListFeatureEmphasisOptions => list_feature_emphasis_options
  | ListAestheticStrengths => list_aesthetic_strengths
  | MapSatelliteParameters t a f s => map_satellite_parameters t a f s
  | GetEnhancementGuidance t a f s => get_enhancement_guidance t a f s
  end.

(** The globals after a sequence of requests has been served. *)
Fixpoint serve (cs : list call) (g : olog) : olog :=
  match cs with
  | [] => g
  | c :: cs' => serve cs' (snd (dispatch c g))
  end.

(** Running a tool against the globals: its outcome, the globals aside. *)
Definition run {A : Type} (m : M A) (g : olog) : result A := fst (m g).

(** ** The data file

    Modelled from the spec: [ologs/imagery_profiles.yaml], the document
    loaded at start-up, is not among the sources.  Its identifiers are
    the ones the test-suite expects, in the order it lists them, and the
    characteristics counts are the ones it asserts (subtle 2, balanced 4,
    strong 6).  The descriptive texts are unknown: [text id field] stands
    for the text of [field] in the record of [id]. *)

(** Modelled from the spec: the imagery-type ids of the data file. *)
Definition imagery_ids : list string :=
  ["false_color_infrared"; "true_color_rgb"; "thermal_infrared";
   "synthetic_aperture_radar"; "lidar_elevation"; "multispectral_agriculture"].

(** Modelled from the spec: the altitude ids of the data file. *)
Definition altitude_ids : list string :=
  ["orbital"; "high_altitude"; "medium_altitude"; "low_altitude"].

(** Modelled from the spec: the feature-emphasis ids of the data file. *)
Definition emphasis_ids : list string :=
  ["natural"; "urban"; "abstract"; "mixed"].

(** Modelled from the spec: the strength ids of the data file, each with
    its characteristics count. *)
Definition strength_counts : list (string * Z) :=
  [("subtle", 2%Z); ("balanced", 4%Z); ("strong", 6%Z)].

Section Taxonomy.
Variable text : string -> string -> string.

Definition profile_of (id : string) : ImageryProfile.t :=
  ImageryProfile.Build
    (text id "name") (text id "structure") (text id "material")
    (text id "color") (text id "texture") (text id "composition")
    (text id "style") (text id "quality") (text id "mood")
    (text id "examples").

Definition perspective_of (id : string) : AltitudePerspective.t :=
  AltitudePerspective.Build
    (text id "description") (text id "scale") (text id "context").

Definition emphasis_of (id : string) : FeatureEmphasis.t :=
  FeatureEmphasis.Build (text id "focus").

Definition strength_of (entry : string * Z) : AestheticStrength.t :=
  AestheticStrength.Build (snd entry) (text (fst entry) "approach").

(** Modelled from the spec: the four tables of the data file, which is
    not among the sources (six imagery profiles, four altitude
    perspectives, four feature emphases, three strengths). *)
Definition taxonomy : olog :=
  Olog (map (fun id => (id, profile_of id)) imagery_ids)
       (map (fun id => (id, perspective_of id)) altitude_ids)
       (map (fun id => (id, emphasis_of id)) emphasis_ids)
       (map (fun e => (fst e, strength_of e)) strength_counts).
End Taxonomy.

(** A taxonomy to run the tools on: every text is a stand-in made of the
    identifier and the field name. *)
Definition sample_olog : olog :=
  taxonomy (fun id field => id ++ "." ++ field).

(** A table the data file does not have: a strength that asks for more
    characteristics than a profile has. *)
Definition oversized_olog : olog :=
  Olog (imagery_profiles sample_olog)
       (altitude_perspectives sample_olog)
       (feature_emphasis sample_olog)
       [("extreme", AestheticStrength.Build 12 "extreme.approach")].

(** ** Vocabulary of the properties *)

(** [rstrip] leaves alone a text that ends in a character that is not
    white space, whatever stands in front of it. *)
Definition ends_solid (s : string) : Prop := rstrip s = s /\ s <> "".

(** A computation that leaves the globals as it found them. *)
Definition read_only {A : Type} (m : M A) : Prop := forall g, snd (m g) = g.

Create HintDb read_only.

(** The messages of the validation of lines 89-98, one per identifier
    that is not a key of its table, in the order of the parameters. *)
Definition unknown_messages (g : olog)
    (imagery_type altitude feature_emphasis_type strength : string)
  : list string :=
  ((if dict_mem (normalize_key imagery_type) (imagery_profiles g)
    then [] else [("Unknown imagery type: " ++ imagery_type)%string]) ++
   (if dict_mem (normalize_key altitude) (altitude_perspectives g)
    then [] else [("Unknown altitude: " ++ altitude)%string]) ++
   (if dict_mem (normalize_key feature_emphasis_type) (feature_emphasis g)
    then [] else [("Unknown feature emphasis: " ++ feature_emphasis_type)%string]) ++
   (if dict_mem (normalize_key strength) (aesthetic_strength g)
    then [] else [("Unknown aesthetic strength: " ++ strength)%string]))%list.

(** How many of the four identifiers are not keys of their tables. *)
Definition invalid_count (g : olog)
    (imagery_type altitude feature_emphasis_type strength : string) : nat :=
  length (filter negb
    [dict_mem (normalize_key imagery_type) (imagery_profiles g);
     dict_mem (normalize_key altitude) (altitude_perspectives g);
     dict_mem (normalize_key feature_emphasis_type) (feature_emphasis g);
     dict_mem (normalize_key strength) (aesthetic_strength g)]).

(** All four identifiers are keys of their tables. *)
Definition all_valid (g : olog)
    (imagery_type altitude feature_emphasis_type strength : string) : bool :=
  dict_mem (normalize_key imagery_type) (imagery_profiles g)
  && dict_mem (normalize_key altitude) (altitude_perspectives g)
  && dict_mem (normalize_key feature_emphasis_type) (feature_emphasis g)
  && dict_mem (normalize_key strength) (aesthetic_strength g).

(** A predicate that holds of every character of a text. *)
Fixpoint string_forall (p : ascii -> bool) (s : string) : bool :=
  match s with
  | EmptyString => true
  | String c s' => p c && string_forall p s'
  end.

(** The ASCII capitals, the characters [lower_char] moves. *)
Definition is_upper (c : ascii) : bool :=
  let n := nat_of_ascii c in ((65 <=? n) && (n <=? 90))%nat.

(** A text in the form normalization produces: no capital, no space. *)
Definition canonical (s : string) : bool :=
  string_forall (fun c => negb (is_upper c) && negb (Ascii.eqb c " ")) s.

(** The stand-in texts of [sample_olog]. *)
Definition sample_text (id field : string) : string := id ++ "." ++ field.

(** A text of ASCII code points, where [lower] is [str.lower]. *)
Definition ascii_only (s : string) : bool :=
  string_forall (fun c => (nat_of_ascii c <? 128)%nat) s.

(** Normalization of one character in the words of the specification:
    a space becomes an underscore, a capital its small letter, and any
    other character stays. *)
Definition spec_normalize_char (c : ascii) : ascii :=
  if Ascii.eqb c " " then "_"%char
  else if is_upper c then ascii_of_nat (nat_of_ascii c + 32)
  else c.

(** A text that fits on one line. *)
Definition one_line (s : string) : bool :=
  string_forall (fun c => negb (Ascii.eqb c (ascii_of_nat 10))) s.

(** The payload of an outcome that is [json.dumps] of a dictionary. *)
Definition payload_of (r : result output) : option json :=
  match r with
  | Ok (Dumps j) => Some j
  | _ => None
  end.

(** The text of an outcome that is a text block. *)
Definition text_of (r : result output) : option string :=
  match r with
  | Ok (Text s) => Some s
  | _ => None
  end.

(** Reading a member of a member. *)
Definition member2 (k1 k2 : string) (j : json) : option json :=
  match member k1 j with
  | Some j' => member k2 j'
  | None => None
  end.

(** The entries of the member [k] when it is a dictionary. *)
Definition entries (k : string) (j : json) : option (dict json) :=
  match member k j with
  | Some (JDict d) => Some d
  | _ => None
  end.

(** A table the data file does not have: a strength whose count is
    negative. *)
Definition negative_olog : olog :=
  Olog (imagery_profiles sample_olog)
       (altitude_perspectives sample_olog)
       (feature_emphasis sample_olog)
       [("inverse", AestheticStrength.Build (-3) "inverse.approach");
        ("void", AestheticStrength.Build (-20) "void.approach")].

(** ** The checks of [tests/test_server.py]

    A test method passes when none of its assertions fails and no
    subscript raises; each is modelled as the boolean that says so. *)

Module TestServer.

(** [set(xs) == set(ys)] *)
Definition same_set (xs ys : list string) : bool :=
  forallb (fun x => existsb (String.eqb x) ys) xs
  && forallb (fun y => existsb (String.eqb y) xs) ys.




(** Lines 92-96. *)
Definition test_all_strengths_present (g : olog) : bool :=
  let expected := ["subtle"; "balanced"; "strong"] in
  Nat.eqb (length (aesthetic_strength g)) 3
  && same_set (dict_keys (aesthetic_strength g)) expected.

(** [table[k]["characteristics"] == n], failing when [k] is missing. *)
Definition count_is (g : olog) (k : string) (n : Z) : bool :=
  match dict_get (aesthetic_strength g) k with
  | Some sd => Z.eqb (AestheticStrength.characteristics sd) n
  | None => false
  end.

(** Lines 109-113. *)
Definition test_characteristic_counts (g : olog) : bool :=
  count_is g "subtle" 2 && count_is g "balanced" 4 && count_is g "strong" 6.




End TestServer.

Ltac unfold_monad :=
  cbv beta iota zeta
    delta [run bind contains subscript get keys items global ret raise].

Arguments normalize_key : simpl never.
Arguments slice_to : simpl never.
Arguments strip : simpl never.

(** * Properties *)

(** ** Strings *)


Lemma map_string_compose (f h : ascii -> ascii) (s : string) :
  map_string f (map_string h s) = map_string (fun c => f (h c)) s.
Proof.
  induction s as [|c s IH]; simpl; [reflexivity | now rewrite IH].
Qed.

Lemma map_string_ext (f h : ascii -> ascii) (s : string) :
  (forall c, f c = h c) -> map_string f s = map_string h s.
Proof.
  intros E; induction s as [|c s IH]; simpl; [reflexivity | now rewrite E, IH].
Qed.

Lemma normalize_key_charwise (s : string) :
  normalize_key s =
  map_string (fun c => if Ascii.eqb (lower_char c) " " then "_"%char
                       else lower_char c) s.
Proof.
  unfold normalize_key, replace, lower. apply map_string_compose.
Qed.


Lemma rstrip_cons (c : ascii) (s : string) :
  rstrip (String c s) =
  match rstrip s with
  | EmptyString => if is_space c then EmptyString else String c EmptyString
  | r => String c r
  end.
Proof. reflexivity. Qed.

Lemma ends_solid_app (s t : string) : ends_solid t -> ends_solid (s ++ t).
Proof.
  intros [Hr Hne]. induction s as [|c s [IHr IHne]]; simpl.
  - now split.
  - split; [|discriminate].
    rewrite rstrip_cons, IHr. destruct (s ++ t); [now elim IHne | reflexivity].
Qed.

Lemma strip_framed (body : string) (c : ascii) (rest : string) :
  body = String c rest -> is_space c = false -> ends_solid body ->
  strip (newline ++ body ++ newline) = body.
Proof.
  intros Hb Hc [Hr Hne]. unfold strip. change (newline ++ body ++ newline)
    with (String (ascii_of_nat 10) (body ++ newline)).
  change (lstrip (String (ascii_of_nat 10) (body ++ newline)))
    with (lstrip (body ++ newline)).
  assert (Hl : lstrip (body ++ newline) = body ++ newline).
  { rewrite Hb. simpl. now rewrite Hc. }
  rewrite Hl. clear Hl Hb Hc.
  induction body as [|b body IH]; [now elim Hne|].
  simpl in *. destruct body as [|b' body'].
  - simpl in *. destruct (is_space b); [discriminate | reflexivity].
  - assert (Hr' : rstrip (String b' body') = String b' body').
    { destruct (rstrip (String b' body')); [|congruence].
      destruct (is_space b); discriminate. }
    rewrite (IH Hr') by discriminate. reflexivity.
Qed.

Lemma split_lines_cons (c : ascii) (s : string) :
  split_lines (String c s) =
  if Ascii.eqb c (ascii_of_nat 10) then EmptyString :: split_lines s
  else match split_lines s with
       | [] => [String c EmptyString]
       | l :: ls => String c l :: ls
       end.
Proof. reflexivity. Qed.

Lemma split_lines_nonempty (s : string) : split_lines s <> [].
Proof.
  destruct s as [|c s]; [discriminate|]. rewrite split_lines_cons.
  destruct (Ascii.eqb c (ascii_of_nat 10)); [discriminate|].
  destruct (split_lines s); discriminate.
Qed.

Lemma split_lines_app (a b : string) :
  split_lines (a ++ newline ++ b) = (split_lines a ++ split_lines b)%list.
Proof.
  induction a as [|c a IH].
  - reflexivity.
  - change (String c a ++ newline ++ b) with (String c (a ++ newline ++ b)).
    rewrite !split_lines_cons, IH.
    destruct (Ascii.eqb c (ascii_of_nat 10)); [reflexivity|].
    pose proof (split_lines_nonempty a) as Hne.
    destruct (split_lines a); [now elim Hne | reflexivity].
Qed.

Lemma append_assoc (a b c : string) : (a ++ b) ++ c = a ++ b ++ c.
Proof.
  induction a as [|x a IH]; simpl; [reflexivity | now rewrite IH].
Qed.

Lemma line_skip (l a b : string) :
  In l (split_lines b) -> In l (split_lines (a ++ newline ++ b)).
Proof.
  intros H. rewrite split_lines_app. apply in_or_app. now right.
Qed.

Lemma line_skip2 (l a1 a2 b : string) :
  In l (split_lines b) -> In l (split_lines (a1 ++ a2 ++ newline ++ b)).
Proof.
  intros H. rewrite <- append_assoc. now apply line_skip.
Qed.

Lemma line_here (a1 a2 b : string) :
  split_lines (a1 ++ a2) = [a1 ++ a2] ->
  In (a1 ++ a2) (split_lines (a1 ++ a2 ++ newline ++ b)).
Proof.
  intros H. rewrite <- append_assoc, split_lines_app, H. now left.
Qed.

(** ** Dictionaries *)

Section DictFacts.
Context {V : Type}.
Implicit Types (d : dict V) (k : string) (v : V).

Lemma dict_get_mem d k v : dict_get d k = Some v -> dict_mem k d = true.
Proof. unfold dict_mem. now intros ->. Qed.

Lemma dict_mem_get d k : dict_mem k d = true -> exists v, dict_get d k = Some v.
Proof.
  unfold dict_mem. destruct (dict_get d k) as [v|]; [now exists v | discriminate].
Qed.

Lemma dict_get_None_mem d k : dict_get d k = None <-> dict_mem k d = false.
Proof. unfold dict_mem. destruct (dict_get d k); split; congruence. Qed.

(** Membership is equality with one of the keys: no other key matches. *)
Lemma dict_mem_In d k : dict_mem k d = true <-> In k (dict_keys d).
Proof.
  unfold dict_mem. induction d as [|[k' v'] d IH]; simpl.
  - split; [discriminate | tauto].
  - destruct (String.eqb_spec k' k) as [->|Hne].
    + split; auto.
    + rewrite IH. split; [auto | intros [E|H]; [now elim Hne | exact H]].
Qed.

Lemma dict_get_In d k v : dict_get d k = Some v -> In (k, v) d.
Proof.
  induction d as [|[k' v'] d IH]; simpl; [discriminate|].
  destruct (String.eqb_spec k' k) as [->|Hne].
  - intros [= ->]. now left.
  - intros H. right. now apply IH.
Qed.

Lemma dict_set_fresh d k v :
  ~ In k (dict_keys d) -> dict_set d k v = (d ++ [(k, v)])%list.
Proof.
  induction d as [|[k' v'] d IH]; simpl; [reflexivity|].
  intros H. destruct (String.eqb_spec k' k) as [->|Hne]; [tauto|].
  rewrite IH; [reflexivity | tauto].
Qed.

Lemma fold_dict_set_distinct (kvs acc : list (string * V)) :
  NoDup (dict_keys (acc ++ kvs)%list) ->
  fold_left (fun d kv => dict_set d (fst kv) (snd kv)) kvs acc
  = (acc ++ kvs)%list.
Proof.
  revert acc. induction kvs as [|[k v] kvs IH]; intros acc H; simpl.
  - now rewrite app_nil_r.
  - assert (E : (acc ++ (k, v) :: kvs = (acc ++ [(k, v)]) ++ kvs)%list)
      by now rewrite <- app_assoc.
    rewrite dict_set_fresh.
    + rewrite IH; [now rewrite <- app_assoc | now rewrite <- E].
    + unfold dict_keys in *. rewrite map_app in H. simpl in H.
      apply NoDup_remove_2 in H. intros Hin. apply H.
      apply in_or_app. now left.
Qed.

(** A display or comprehension over items with distinct keys is those
    items, in their order. *)
Lemma dict_of_items_distinct (kvs : list (string * V)) :
  NoDup (dict_keys kvs) -> dict_of_items kvs = kvs.
Proof. intros H. unfold dict_of_items. now rewrite fold_dict_set_distinct. Qed.
End DictFacts.

Lemma NoDup_firstn {A : Type} (n : nat) (l : list A) :
  NoDup l -> NoDup (firstn n l).
Proof.
  revert n. induction l as [|x l IH]; intros [|n] H; simpl;
    try constructor.
  - inversion_clear H as [|? ? Hx Hl]. intros Hin. apply Hx.
    revert Hin. clear. revert n. induction l as [|y l IH]; intros [|n]; simpl; try tauto.
    intros [E|H]; [now left | right; eauto].
  - inversion_clear H. now apply IH.
Qed.

(** ** The tools only read the globals *)

Lemma read_only_ret {A : Type} (a : A) : read_only (ret a).
Proof. intros g. reflexivity. Qed.

Lemma read_only_raise {A : Type} (k : string) : read_only (@raise A k).
Proof. intros g. reflexivity. Qed.

Lemma read_only_global {T : Type} (table : olog -> T) : read_only (global table).
Proof. intros g. reflexivity. Qed.

Lemma read_only_bind {A B : Type} (m : M A) (f : A -> M B) :
  read_only m -> (forall a, read_only (f a)) -> read_only (bind m f).
Proof.
  intros Hm Hf g. unfold bind. specialize (Hm g).
  destruct (m g) as [[a|k] g']; simpl in Hm; subst g'; [apply Hf | reflexivity].
Qed.

Lemma read_only_if {A : Type} (b : bool) (m1 m2 : M A) :
  read_only m1 -> read_only m2 -> read_only (if b then m1 else m2).
Proof. now destruct b. Qed.

#[local] Hint Resolve read_only_ret read_only_raise read_only_global
  read_only_if : read_only.
#[local] Hint Extern 2 (read_only (bind _ _)) =>
  apply read_only_bind; [|intro] : read_only.
#[local] Hint Extern 3 (read_only (match ?x with _ => _ end)) =>
  destruct x : read_only.

Lemma read_only_keys {V : Type} (table : olog -> dict V) : read_only (keys table).
Proof. unfold keys. auto with read_only. Qed.

Lemma read_only_items {V : Type} (table : olog -> dict V) : read_only (items table).
Proof. unfold items. auto with read_only. Qed.

Lemma read_only_contains {V : Type} (k : string) (table : olog -> dict V) :
  read_only (contains k table).
Proof. unfold contains. auto with read_only. Qed.

Lemma read_only_subscript {V : Type} (table : olog -> dict V) (k : string) :
  read_only (subscript table k).
Proof. unfold subscript. auto with read_only. Qed.

Lemma read_only_get {V : Type} (table : olog -> dict V) (k : string) :
  read_only (get table k).
Proof. unfold get. auto with read_only. Qed.

#[local] Hint Resolve read_only_keys read_only_items read_only_contains
  read_only_subscript read_only_get : read_only.

Lemma read_only_dispatch (c : call) : read_only (dispatch c).
Proof.
  destruct c; simpl;
    unfold list_imagery_types, get_imagery_profile, list_altitude_perspectives,
      list_feature_emphasis_options, list_aesthetic_strengths,
      map_satellite_parameters, get_enhancement_guidance;
    cbv zeta; auto 20 with read_only.
Qed.

Lemma serve_unchanged (cs : list call) (g : olog) : serve cs g = g.
Proof.
  induction cs as [|c cs IH]; simpl; [reflexivity|].
  now rewrite (read_only_dispatch c g).
Qed.

(** ** What each tool returns, branch by branch *)

Lemma get_imagery_profile_found (g : olog) (t : string) (p : ImageryProfile.t) :
  dict_get (imagery_profiles g) (normalize_key t) = Some p ->
  get_imagery_profile t g =
  (Ok (Dumps (obj [("imagery_type", JStr (normalize_key t));
                   ("profile", ImageryProfile.to_json p)])), g).
Proof.
  intros H. unfold get_imagery_profile. unfold_monad.
  rewrite (dict_get_mem _ _ _ H). cbv beta iota delta [negb]. now rewrite H.
Qed.

Lemma get_imagery_profile_missing (g : olog) (t : string) :
  dict_get (imagery_profiles g) (normalize_key t) = None ->
  get_imagery_profile t g =
  (Ok (Dumps (obj [("error", JStr ("Unknown imagery type: " ++ t));
                   ("available",
                     JList (map JStr (dict_keys (imagery_profiles g))))])), g).
Proof.
  intros H. unfold get_imagery_profile. unfold_monad.
  apply dict_get_None_mem in H. rewrite H. reflexivity.
Qed.

Lemma map_satellite_parameters_valid (g : olog) (t a f s : string)
    (p : ImageryProfile.t) (ad : AltitudePerspective.t)
    (fd : FeatureEmphasis.t) (sd : AestheticStrength.t) :
  dict_get (imagery_profiles g) (normalize_key t) = Some p ->
  dict_get (altitude_perspectives g) (normalize_key a) = Some ad ->
  dict_get (feature_emphasis g) (normalize_key f) = Some fd ->
  dict_get (aesthetic_strength g) (normalize_key s) = Some sd ->
  map_satellite_parameters t a f s g =
  (Ok (Dumps (mapped_parameters (normalize_key t) (normalize_key a)
                (normalize_key f) (normalize_key s) p ad fd sd)), g).
Proof.
  intros Hp Ha Hf Hs. unfold map_satellite_parameters. unfold_monad.
  rewrite (dict_get_mem _ _ _ Hp), (dict_get_mem _ _ _ Ha),
    (dict_get_mem _ _ _ Hf), (dict_get_mem _ _ _ Hs).
  cbv beta iota delta [negb]. now rewrite Hp, Ha, Hf, Hs.
Qed.

Lemma all_valid_get (g : olog) (t a f s : string) :
  all_valid g t a f s = true ->
  exists p ad fd sd,
    dict_get (imagery_profiles g) (normalize_key t) = Some p /\
    dict_get (altitude_perspectives g) (normalize_key a) = Some ad /\
    dict_get (feature_emphasis g) (normalize_key f) = Some fd /\
    dict_get (aesthetic_strength g) (normalize_key s) = Some sd.
Proof.
  unfold all_valid. rewrite !andb_true_iff. intros [[[Hp Ha] Hf] Hs].
  apply dict_mem_get in Hp, Ha, Hf, Hs.
  destruct Hp as [p Hp], Ha as [ad Ha], Hf as [fd Hf], Hs as [sd Hs].
  now exists p, ad, fd, sd.
Qed.

Lemma map_satellite_parameters_invalid (g : olog) (t a f s : string) :
  all_valid g t a f s = false ->
  map_satellite_parameters t a f s g =
  (Ok (Dumps (JDict [("errors", JList (map JStr (unknown_messages g t a f s)))])),
   g).
Proof.
  unfold all_valid, unknown_messages, map_satellite_parameters. unfold_monad.
  destruct (dict_mem (normalize_key t) (imagery_profiles g)),
    (dict_mem (normalize_key a) (altitude_perspectives g)),
    (dict_mem (normalize_key f) (feature_emphasis g)),
    (dict_mem (normalize_key s) (aesthetic_strength g));
    cbn; intros H; try discriminate H; reflexivity.
Qed.

Lemma unknown_messages_length (g : olog) (t a f s : string) :
  length (unknown_messages g t a f s) = invalid_count g t a f s.
Proof.
  unfold unknown_messages, invalid_count.
  destruct (dict_mem (normalize_key t) (imagery_profiles g)),
    (dict_mem (normalize_key a) (altitude_perspectives g)),
    (dict_mem (normalize_key f) (feature_emphasis g)),
    (dict_mem (normalize_key s) (aesthetic_strength g)); reflexivity.
Qed.

(** The eight characteristics of a profile have eight distinct names. *)
Lemma all_characteristics_distinct (p : ImageryProfile.t) :
  NoDup (dict_keys (all_characteristics_of p)).
Proof.
  unfold all_characteristics_of, dict_keys. simpl.
  repeat (constructor; [simpl; intuition discriminate|]). constructor.
Qed.

Lemma json_of_items_distinct {V : Type} (h : V -> json) (kvs : list (string * V)) :
  NoDup (dict_keys kvs) ->
  json_of_dict h (dict_of_items kvs)
  = JDict (map (fun kv => (fst kv, h (snd kv))) kvs).
Proof. intros H. unfold json_of_dict. now rewrite dict_of_items_distinct. Qed.

Lemma slice_to_nonneg {A : Type} (l : list A) (n : Z) :
  (0 <= n)%Z -> slice_to l n = firstn (Z.to_nat n) l.
Proof.
  intros Hn. unfold slice_to.
  destruct (Z.ltb_spec n 0) as [Hlt|_]; [lia|].
  destruct (Z.le_gt_cases n (Z.of_nat (length l))) as [Hle|Hgt].
  - now rewrite Z.min_l.
  - rewrite Z.min_r by lia. rewrite Nat2Z.id.
    rewrite !firstn_all2; [reflexivity | lia | lia].
Qed.

Lemma slice_to_distinct {V : Type} (kvs : list (string * V)) (n : Z) :
  NoDup (dict_keys kvs) -> NoDup (dict_keys (slice_to kvs n)).
Proof.
  intros H. unfold slice_to, dict_keys. rewrite <- firstn_map.
  now apply NoDup_firstn.
Qed.

(** [strip] takes the two framing line breaks off the guidance and
    nothing else: the body starts with a letter and ends with one. *)
Lemma strip_guidance (p : ImageryProfile.t)
    (ad : option AltitudePerspective.t) (fd : option FeatureEmphasis.t)
    (sd : option AestheticStrength.t) :
  strip (newline ++ guidance_body p ad fd sd ++ newline)
  = guidance_body p ad fd sd.
Proof.
  eapply strip_framed.
  - unfold guidance_body. reflexivity.
  - reflexivity.
  - unfold guidance_body. repeat apply ends_solid_app.
    split; [reflexivity | discriminate].
Qed.

Lemma get_enhancement_guidance_unknown (g : olog) (t a f s : string) :
  dict_mem (normalize_key t) (imagery_profiles g) = false ->
  get_enhancement_guidance t a f s g =
  (Ok (Dumps (obj [("error", JStr ("Unknown imagery type: " ++ t))])), g).
Proof.
  intros H. unfold get_enhancement_guidance. unfold_monad. now rewrite H.
Qed.

Lemma get_enhancement_guidance_known (g : olog) (t a f s : string)
    (p : ImageryProfile.t) :
  dict_get (imagery_profiles g) (normalize_key t) = Some p ->
  get_enhancement_guidance t a f s g =
  (Ok (Text (guidance_body p
               (dict_get (altitude_perspectives g) (normalize_key a))
               (dict_get (feature_emphasis g) (normalize_key f))
               (dict_get (aesthetic_strength g) (normalize_key s)))), g).
Proof.
  intros H. unfold get_enhancement_guidance. unfold_monad.
  rewrite (dict_get_mem _ _ _ H). cbv beta iota delta [negb]. rewrite H.
  now rewrite strip_guidance.
Qed.

(** The three descriptive lines of the guidance are lines of the text. *)
Lemma guidance_body_lines (p : ImageryProfile.t)
    (ad : option AltitudePerspective.t) (fd : option FeatureEmphasis.t)
    (sd : option AestheticStrength.t) :
  let text := guidance_body p ad fd sd in
  (ad = None -> In "Altitude Perspective: Unknown" (split_lines text)) /\
  (fd = None -> In "Feature Emphasis: Unknown" (split_lines text)) /\
  (sd = None -> In "Aesthetic Strength: Unknown" (split_lines text)).
Proof.
  unfold guidance_body.
  repeat split; intros ->; unfold field_or_unknown.
  - apply line_skip. apply (line_skip _ ""). apply line_skip2.
    now apply (line_here "Altitude Perspective: " "Unknown").
  - apply line_skip. apply (line_skip _ ""). do 2 apply line_skip2.
    now apply (line_here "Feature Emphasis: " "Unknown").
  - apply line_skip. apply (line_skip _ ""). do 3 apply line_skip2.
    now apply (line_here "Aesthetic Strength: " "Unknown").
Qed.

(** The counts of the data file are within the eight characteristics a
    profile has. *)
Lemma taxonomy_counts_in_range (text : string -> string -> string)
    (s : string) (sd : AestheticStrength.t) :
  dict_get (aesthetic_strength (taxonomy text)) s = Some sd ->
  (0 <= AestheticStrength.characteristics sd <= 8)%Z.
Proof.
  unfold taxonomy, strength_counts. cbn [aesthetic_strength map dict_get fst].
  repeat match goal with
         | |- context [String.eqb ?k s] => destruct (String.eqb k s)
         end;
    intros H; try discriminate H; injection H as <-; simpl; lia.
Qed.

(** * The claims *)

(** C1.  When the four normalized identifiers are keys of their tables,
    [selected_characteristics] is the prefix of length N of the list
    structure, material, color, texture, composition, style, quality, mood
    taken from the matched profile, N being the characteristics count of
    the matched strength (between 0 and 8, as in the data file), and
    [all_available_characteristics] holds exactly those eight entries. *)
Theorem map_satellite_parameters_selects_prefix
    (g : olog) (t a f s : string)
    (p : ImageryProfile.t) (sd : AestheticStrength.t)
    (Hp : dict_get (imagery_profiles g) (normalize_key t) = Some p)
    (Ha : dict_mem (normalize_key a) (altitude_perspectives g) = true)
    (Hf : dict_mem (normalize_key f) (feature_emphasis g) = true)
    (Hs : dict_get (aesthetic_strength g) (normalize_key s) = Some sd)
    (HN : (0 <= AestheticStrength.characteristics sd <= 8)%Z) :
  let N := Z.to_nat (AestheticStrength.characteristics sd) in
  let eight :=
    [("structure", JStr (ImageryProfile.structure p));
     ("material", JStr (ImageryProfile.material p));
     ("color", JStr (ImageryProfile.color p));
     ("texture", JStr (ImageryProfile.texture p));
     ("composition", JStr (ImageryProfile.composition p));
     ("style", JStr (ImageryProfile.style p));
     ("quality", JStr (ImageryProfile.quality p));
     ("mood", JStr (ImageryProfile.mood p))] in
  exists payload selected,
    run (map_satellite_parameters t a f s) g = Ok (Dumps payload) /\
    member "selected_characteristics" payload = Some (JDict selected) /\
    selected = firstn N eight /\
    length selected = N /\
    member "all_available_characteristics" payload = Some (JDict eight).
Proof.
  intros N eight.
  destruct (dict_mem_get _ _ Ha) as [ad Had].
  destruct (dict_mem_get _ _ Hf) as [fd Hfd].
  unfold run. rewrite (map_satellite_parameters_valid g t a f s p ad fd sd)
    by assumption.
  exists (mapped_parameters (normalize_key t) (normalize_key a)
            (normalize_key f) (normalize_key s) p ad fd sd),
         (firstn N eight).
  split; [reflexivity|].
  unfold mapped_parameters. cbn [member obj dict_of_items fold_left dict_set
    dict_get fst snd String.eqb Ascii.eqb Bool.eqb].
  rewrite !json_of_items_distinct
    by auto using slice_to_distinct, all_characteristics_distinct.
  rewrite slice_to_nonneg by lia. rewrite <- firstn_map.
  repeat split.
  rewrite length_firstn. subst N eight. simpl length. lia.
Qed.

(** On the combination the specification gives as an example, with the
    strength "strong", the first six characteristics are selected. *)
Lemma map_satellite_parameters_selects_prefix_witness :
  all_valid sample_olog "false_color_infrared" "orbital" "natural" "strong"
  = true /\
  exists payload selected,
    run (map_satellite_parameters
           "false_color_infrared" "orbital" "natural" "strong") sample_olog
    = Ok (Dumps payload) /\
    member "selected_characteristics" payload = Some (JDict selected) /\
    selected =
      [("structure", JStr "false_color_infrared.structure");
       ("material", JStr "false_color_infrared.material");
       ("color", JStr "false_color_infrared.color");
       ("texture", JStr "false_color_infrared.texture");
       ("composition", JStr "false_color_infrared.composition");
       ("style", JStr "false_color_infrared.style")] /\
    length selected = 6 /\
    member "all_available_characteristics" payload =
      Some (JDict
        [("structure", JStr "false_color_infrared.structure");
         ("material", JStr "false_color_infrared.material");
         ("color", JStr "false_color_infrared.color");
         ("texture", JStr "false_color_infrared.texture");
         ("composition", JStr "false_color_infrared.composition");
         ("style", JStr "false_color_infrared.style");
         ("quality", JStr "false_color_infrared.quality");
         ("mood", JStr "false_color_infrared.mood")]).
Proof.
  split; [reflexivity|].
  refine (map_satellite_parameters_selects_prefix sample_olog
           "false_color_infrared" "orbital" "natural" "strong"
           (profile_of (fun id field => id ++ "." ++ field) "false_color_infrared")
           (strength_of (fun id field => id ++ "." ++ field) ("strong", 6%Z))
           eq_refl eq_refl eq_refl eq_refl _).
  simpl. lia.
Defined.

(** C2.  When some normalized identifier is not a key of its table, the
    payload is the dictionary with the single key [errors]; it has no
    [selected_characteristics]; the list holds one message per unknown
    identifier, all of them: four messages when all four are unknown, and
    the one message naming the imagery type as passed when it alone is
    unknown. *)
Theorem map_satellite_parameters_reports_every_unknown
    (g : olog) (t a f s : string)
    (Hinvalid : all_valid g t a f s = false) :
  exists payload errors,
    run (map_satellite_parameters t a f s) g = Ok (Dumps payload) /\
    members payload = ["errors"] /\
    member "errors" payload = Some (JList (map JStr errors)) /\
    member "selected_characteristics" payload = None /\
    errors = unknown_messages g t a f s /\
    length errors = invalid_count g t a f s /\
    (invalid_count g t a f s = 4 -> length errors = 4) /\
    (dict_mem (normalize_key t) (imagery_profiles g) = false ->
     dict_mem (normalize_key a) (altitude_perspectives g) = true ->
     dict_mem (normalize_key f) (feature_emphasis g) = true ->
     dict_mem (normalize_key s) (aesthetic_strength g) = true ->
     errors = [("Unknown imagery type: " ++ t)%string]).
Proof.
  unfold run. rewrite map_satellite_parameters_invalid by assumption.
  eexists. exists (unknown_messages g t a f s).
  split; [reflexivity|]. repeat split.
  - apply unknown_messages_length.
  - intros H. now rewrite unknown_messages_length.
  - intros Ht Ha Hf Hs. unfold unknown_messages. now rewrite Ht, Ha, Hf, Hs.
Qed.

(** The two calls of the specification: four unknown identifiers give four
    messages, and "Not A Type" with three known identifiers gives the one
    message that names it. *)
Lemma map_satellite_parameters_reports_every_unknown_witness :
  all_valid sample_olog "not_a_type" "not_an_altitude" "x" "y" = false /\
  (exists payload errors,
    run (map_satellite_parameters "not_a_type" "not_an_altitude" "x" "y")
        sample_olog = Ok (Dumps payload) /\
    members payload = ["errors"] /\
    member "errors" payload = Some (JList (map JStr errors)) /\
    member "selected_characteristics" payload = None /\
    errors = ["Unknown imagery type: not_a_type";
              "Unknown altitude: not_an_altitude";
              "Unknown feature emphasis: x";
              "Unknown aesthetic strength: y"] /\
    length errors = 4) /\
  all_valid sample_olog "Not A Type" "orbital" "natural" "strong" = false /\
  (exists payload errors,
    run (map_satellite_parameters "Not A Type" "orbital" "natural" "strong")
        sample_olog = Ok (Dumps payload) /\
    members payload = ["errors"] /\
    member "selected_characteristics" payload = None /\
    errors = ["Unknown imagery type: Not A Type"]).
Proof.
  split; [reflexivity|]. split; [|split; [reflexivity|]].
  - destruct (map_satellite_parameters_reports_every_unknown sample_olog
                "not_a_type" "not_an_altitude" "x" "y" eq_refl)
      as (payload & errors & Hrun & Hkeys & Herr & Hsel & Hmsg & Hlen & _).
    exists payload, errors. repeat split; assumption.
  - destruct (map_satellite_parameters_reports_every_unknown sample_olog
                "Not A Type" "orbital" "natural" "strong" eq_refl)
      as (payload & errors & Hrun & Hkeys & _ & Hsel & _ & _ & _ & Hone).
    exists payload, errors. repeat split; try assumption.
    exact (Hone eq_refl eq_refl eq_refl eq_refl).
Defined.

Lemma normalize_key_spec_charwise (x : string) :
  normalize_key x = map_string spec_normalize_char x.
Proof.
  rewrite normalize_key_charwise. apply map_string_ext. intros c.
  destruct c as [b0 b1 b2 b3 b4 b5 b6 b7].
  destruct b0, b1, b2, b3, b4, b5, b6, b7; reflexivity.
Qed.

(** C3.  Every tool that takes identifiers looks each of them up by its
    normalized form (lower-cased, spaces turned into underscores), and the
    lookup succeeds exactly when that form is one of the keys: a tool
    answers with data if and only if the normalized identifiers are equal
    to keys of the tables, and the data are the records stored under the
    normalized forms of all the identifiers, the altitude, feature
    emphasis and strength of [map_satellite_parameters] and
    [get_enhancement_guidance] included.
    [get_imagery_profile("True Color RGB")] looks up [true_color_rgb] and,
    when that key is present, returns it with the record stored under
    it. *)
Theorem identifiers_are_normalized_and_matched_exactly
    (g : olog) (t a f s : string) :
  (In (normalize_key t) (dict_keys (imagery_profiles g)) <->
   exists p,
     dict_get (imagery_profiles g) (normalize_key t) = Some p /\
     run (get_imagery_profile t) g =
     Ok (Dumps (obj [("imagery_type", JStr (normalize_key t));
                     ("profile", ImageryProfile.to_json p)]))) /\
  (In (normalize_key t) (dict_keys (imagery_profiles g)) /\
   In (normalize_key a) (dict_keys (altitude_perspectives g)) /\
   In (normalize_key f) (dict_keys (feature_emphasis g)) /\
   In (normalize_key s) (dict_keys (aesthetic_strength g)) <->
   exists payload,
     run (map_satellite_parameters t a f s) g = Ok (Dumps payload) /\
     member "errors" payload = None) /\
  (In (normalize_key t) (dict_keys (imagery_profiles g)) <->
   exists text, run (get_enhancement_guidance t a f s) g = Ok (Text text)) /\
  normalize_key "True Color RGB" = "true_color_rgb" /\
  (forall p,
     dict_get (imagery_profiles g) "true_color_rgb" = Some p ->
     run (get_imagery_profile "True Color RGB") g =
     Ok (Dumps (obj [("imagery_type", JStr "true_color_rgb");
                     ("profile", ImageryProfile.to_json p)]))) /\
  (forall p ad fd sd,
     dict_get (imagery_profiles g) (normalize_key t) = Some p ->
     dict_get (altitude_perspectives g) (normalize_key a) = Some ad ->
     dict_get (feature_emphasis g) (normalize_key f) = Some fd ->
     dict_get (aesthetic_strength g) (normalize_key s) = Some sd ->
     run (map_satellite_parameters t a f s) g =
     Ok (Dumps (mapped_parameters (normalize_key t) (normalize_key a)
                  (normalize_key f) (normalize_key s) p ad fd sd))) /\
  (all_valid g t a f s = false ->
   run (map_satellite_parameters t a f s) g =
   Ok (Dumps (JDict [("errors",
                      JList (map JStr (unknown_messages g t a f s)))]))) /\
  (forall p,
     dict_get (imagery_profiles g) (normalize_key t) = Some p ->
     run (get_enhancement_guidance t a f s) g =
     Ok (Text (guidance_body p
                 (dict_get (altitude_perspectives g) (normalize_key a))
                 (dict_get (feature_emphasis g) (normalize_key f))
                 (dict_get (aesthetic_strength g) (normalize_key s))))) /\
  (forall x,
     ascii_only x = true ->
     normalize_key x = map_string spec_normalize_char x).
Proof.
  split; [|split; [|split; [|split; [|split; [|split; [|split; [|split]]]]]]].
  - rewrite <- dict_mem_In. split.
    + intros H. destruct (dict_mem_get _ _ H) as [p Hp]. exists p.
      split; [assumption|]. unfold run.
      now rewrite (get_imagery_profile_found g t p Hp).
    + intros (p & Hp & _). now apply dict_get_mem in Hp.
  - rewrite <- !dict_mem_In. split.
    + intros (Ht & Ha & Hf & Hs).
      destruct (all_valid_get g t a f s) as (p & ad & fd & sd & Hp & Had & Hfd & Hsd).
      { unfold all_valid. now rewrite Ht, Ha, Hf, Hs. }
      eexists. unfold run.
      rewrite (map_satellite_parameters_valid g t a f s p ad fd sd) by assumption.
      split; reflexivity.
    + intros (payload & Hrun & Hnone).
      destruct (all_valid g t a f s) eqn:Hv.
      * unfold all_valid in Hv. rewrite !andb_true_iff in Hv. tauto.
      * unfold run in Hrun. rewrite map_satellite_parameters_invalid in Hrun
          by assumption.
        simpl in Hrun. injection Hrun as <-. discriminate Hnone.
  - rewrite <- dict_mem_In. split.
    + intros H. destruct (dict_mem_get _ _ H) as [p Hp]. eexists. unfold run.
      now rewrite (get_enhancement_guidance_known g t a f s p Hp).
    + intros (text & Hrun).
      destruct (dict_mem (normalize_key t) (imagery_profiles g)) eqn:Hm;
        [reflexivity|].
      unfold run in Hrun.
      rewrite get_enhancement_guidance_unknown in Hrun by assumption.
      discriminate Hrun.
  - reflexivity.
  - intros p Hp. unfold run.
    now rewrite (get_imagery_profile_found g "True Color RGB" p Hp).
  - intros p ad fd sd Hp Had Hfd Hsd. unfold run.
    now rewrite (map_satellite_parameters_valid g t a f s p ad fd sd).
  - intros Hv. unfold run. now rewrite map_satellite_parameters_invalid.
  - intros p Hp. unfold run.
    now rewrite (get_enhancement_guidance_known g t a f s p Hp).
  - intros x _. apply normalize_key_spec_charwise.
Qed.

(** The records are found under the display forms of their names: the
    profile by [get_imagery_profile], all four by
    [map_satellite_parameters], and by [get_enhancement_guidance] the
    profile and the altitude, with nothing found for the feature emphasis
    and the strength, which are no keys. *)
Lemma identifiers_are_normalized_and_matched_exactly_witness :
  (dict_get (imagery_profiles sample_olog) "true_color_rgb"
   = Some (profile_of sample_text "true_color_rgb") /\
   run (get_imagery_profile "True Color RGB") sample_olog =
   Ok (Dumps (obj [("imagery_type", JStr "true_color_rgb");
                   ("profile",
                     ImageryProfile.to_json
                       (profile_of sample_text "true_color_rgb"))]))) /\
  (all_valid sample_olog "True Color RGB" "Low Altitude" "URBAN" "Strong"
   = true /\
   run (map_satellite_parameters
          "True Color RGB" "Low Altitude" "URBAN" "Strong") sample_olog =
   Ok (Dumps (mapped_parameters
                "true_color_rgb" "low_altitude" "urban" "strong"
                (profile_of sample_text "true_color_rgb")
                (perspective_of sample_text "low_altitude")
                (emphasis_of sample_text "urban")
                (strength_of sample_text ("strong", 6%Z))))) /\
  (all_valid sample_olog "True Color RGB" "Low Altitude" "sub urban" "Strong"
   = false /\
   run (map_satellite_parameters
          "True Color RGB" "Low Altitude" "sub urban" "Strong") sample_olog =
   Ok (Dumps (JDict [("errors",
                      JList [JStr "Unknown feature emphasis: sub urban"])]))) /\
  (run (get_enhancement_guidance
          "True Color RGB" "Low Altitude" "sub urban" "very strong")
       sample_olog =
   Ok (Text (guidance_body (profile_of sample_text "true_color_rgb")
               (Some (perspective_of sample_text "low_altitude")) None None))) /\
  (ascii_only "True Color RGB" = true /\
   normalize_key "True Color RGB"
   = map_string spec_normalize_char "True Color RGB").
Proof.
  pose proof (identifiers_are_normalized_and_matched_exactly sample_olog
                "True Color RGB" "Low Altitude" "URBAN" "Strong")
    as (_ & _ & _ & _ & Hprofile & Hmap & _ & _ & Hnorm).
  pose proof (identifiers_are_normalized_and_matched_exactly sample_olog
                "True Color RGB" "Low Altitude" "sub urban" "Strong")
    as (_ & _ & _ & _ & _ & _ & Herrors & _ & _).
  pose proof (identifiers_are_normalized_and_matched_exactly sample_olog
                "True Color RGB" "Low Altitude" "sub urban" "very strong")
    as (_ & _ & _ & _ & _ & _ & _ & Hguide & _).
  split; [split; [reflexivity
                 | exact (Hprofile (profile_of sample_text "true_color_rgb") eq_refl)]|].
  split; [split; [reflexivity
                 | exact (Hmap (profile_of sample_text "true_color_rgb")
                            (perspective_of sample_text "low_altitude")
                            (emphasis_of sample_text "urban")
                            (strength_of sample_text ("strong", 6%Z))
                            eq_refl eq_refl eq_refl eq_refl)]|].
  split; [split; [reflexivity | exact (Herrors eq_refl)]|].
  split; [exact (Hguide (profile_of sample_text "true_color_rgb") eq_refl)|].
  split; [reflexivity | exact (Hnorm "True Color RGB" eq_refl)].
Defined.

(** C4.  [get_enhancement_guidance] answers an unknown imagery type with
    an error payload, and otherwise with a text, also when the altitude,
    the feature emphasis or the strength is unknown: the line of each
    unknown one reads "Unknown". *)
Theorem get_enhancement_guidance_degrades_to_unknown
    (g : olog) (t a f s : string) :
  (dict_mem (normalize_key t) (imagery_profiles g) = false ->
   run (get_enhancement_guidance t a f s) g =
   Ok (Dumps (obj [("error", JStr ("Unknown imagery type: " ++ t))]))) /\
  (dict_mem (normalize_key t) (imagery_profiles g) = true ->
   exists text,
     run (get_enhancement_guidance t a f s) g = Ok (Text text) /\
     (dict_mem (normalize_key a) (altitude_perspectives g) = false ->
      In "Altitude Perspective: Unknown" (split_lines text)) /\
     (dict_mem (normalize_key f) (feature_emphasis g) = false ->
      In "Feature Emphasis: Unknown" (split_lines text)) /\
     (dict_mem (normalize_key s) (aesthetic_strength g) = false ->
      In "Aesthetic Strength: Unknown" (split_lines text))).
Proof.
  split.
  - intros H. unfold run. now rewrite get_enhancement_guidance_unknown.
  - intros H. destruct (dict_mem_get _ _ H) as [p Hp].
    eexists. unfold run.
    rewrite (get_enhancement_guidance_known g t a f s p Hp).
    split; [reflexivity|].
    destruct (guidance_body_lines p
                (dict_get (altitude_perspectives g) (normalize_key a))
                (dict_get (feature_emphasis g) (normalize_key f))
                (dict_get (aesthetic_strength g) (normalize_key s)))
      as (La & Lf & Ls).
    repeat split; intros Hm; apply dict_get_None_mem in Hm; auto.
Qed.

(** A known imagery type with an unknown altitude: a text with the
    placeholder line; an unknown imagery type: the error payload. *)
Lemma get_enhancement_guidance_degrades_to_unknown_witness :
  (dict_mem (normalize_key "Nope") (imagery_profiles sample_olog) = false /\
   run (get_enhancement_guidance "Nope" "orbital" "natural" "strong") sample_olog
   = Ok (Dumps (JDict [("error", JStr "Unknown imagery type: Nope")]))) /\
  (dict_mem (normalize_key "True Color RGB") (imagery_profiles sample_olog)
   = true /\
   dict_mem (normalize_key "sea level") (altitude_perspectives sample_olog)
   = false /\
   exists text,
     run (get_enhancement_guidance "True Color RGB" "sea level" "natural" "strong")
         sample_olog = Ok (Text text) /\
     In "Altitude Perspective: Unknown" (split_lines text)).
Proof.
  split; [split; [reflexivity|] | split; [reflexivity | split; [reflexivity|]]].
  - exact (proj1 (get_enhancement_guidance_degrades_to_unknown sample_olog
                    "Nope" "orbital" "natural" "strong") eq_refl).
  - destruct (proj2 (get_enhancement_guidance_degrades_to_unknown sample_olog
                       "True Color RGB" "sea level" "natural" "strong") eq_refl)
      as (text & Hrun & Halt & _).
    exists text. split; [exact Hrun | exact (Halt eq_refl)].
Defined.

(** C5.  For every input, [get_imagery_profile] returns either the
    normalized identifier with the full record stored under it (the key is
    in the table), or a payload whose [error] names the identifier as
    passed and whose [available] lists all the keys of the table (it is
    not); it never raises. *)
Theorem get_imagery_profile_total (g : olog) (t : string) :
  ((exists p payload,
      dict_get (imagery_profiles g) (normalize_key t) = Some p /\
      run (get_imagery_profile t) g = Ok (Dumps payload) /\
      members payload = ["imagery_type"; "profile"] /\
      member "imagery_type" payload = Some (JStr (normalize_key t)) /\
      member "profile" payload = Some (ImageryProfile.to_json p))
   \/
   (exists payload,
      dict_get (imagery_profiles g) (normalize_key t) = None /\
      run (get_imagery_profile t) g = Ok (Dumps payload) /\
      members payload = ["error"; "available"] /\
      member "error" payload = Some (JStr ("Unknown imagery type: " ++ t)) /\
      member "available" payload =
        Some (JList (map JStr (dict_keys (imagery_profiles g)))))) /\
  (forall k, run (get_imagery_profile t) g <> KeyError k).
Proof.
  unfold run.
  destruct (dict_get (imagery_profiles g) (normalize_key t)) as [p|] eqn:H.
  - rewrite (get_imagery_profile_found g t p H). split; [|discriminate].
    left. exists p. eexists. repeat split.
  - rewrite (get_imagery_profile_missing g t H). split; [|discriminate].
    right. eexists. repeat split.
Qed.

Lemma NoDup_by_count (l : list string) :
  forallb (fun k => Nat.eqb (count_occ string_dec l k) 1) l = true -> NoDup l.
Proof.
  intros H. apply (NoDup_count_occ' string_dec). intros x Hx.
  rewrite forallb_forall in H. now apply Nat.eqb_eq, H.
Qed.

(** C6.  The four tables of the data file hold 6 imagery profiles, 4
    altitude perspectives, 4 feature emphases and 3 strengths, and the
    characteristics counts are subtle 2, balanced 4, strong 6. *)
Theorem taxonomy_sizes_and_counts (text : string -> string -> string) :
  let g := taxonomy text in
  length (imagery_profiles g) = 6 /\
  length (altitude_perspectives g) = 4 /\
  length (feature_emphasis g) = 4 /\
  length (aesthetic_strength g) = 3 /\
  NoDup (dict_keys (imagery_profiles g)) /\
  NoDup (dict_keys (altitude_perspectives g)) /\
  NoDup (dict_keys (feature_emphasis g)) /\
  NoDup (dict_keys (aesthetic_strength g)) /\
  option_map AestheticStrength.characteristics
    (dict_get (aesthetic_strength g) "subtle") = Some 2%Z /\
  option_map AestheticStrength.characteristics
    (dict_get (aesthetic_strength g) "balanced") = Some 4%Z /\
  option_map AestheticStrength.characteristics
    (dict_get (aesthetic_strength g) "strong") = Some 6%Z.
Proof.
  cbv zeta. repeat split; try reflexivity;
    apply NoDup_by_count; reflexivity.
Qed.

(** C7.  Every result of [map_satellite_parameters] on four known
    identifiers carries the fixed [output_format] text. *)
Theorem map_satellite_parameters_output_format
    (g : olog) (t a f s : string)
    (Hvalid : all_valid g t a f s = true) :
  exists payload,
    run (map_satellite_parameters t a f s) g = Ok (Dumps payload) /\
    member "output_format" payload =
    Some (JStr "60-80 words, natural sentence flow, vivid artistic language, ending with 'highly detailed, 8k, satellite imagery aesthetic'").
Proof.
  destruct (all_valid_get g t a f s Hvalid)
    as (p & ad & fd & sd & Hp & Had & Hfd & Hsd).
  eexists. unfold run.
  rewrite (map_satellite_parameters_valid g t a f s p ad fd sd) by assumption.
  split; reflexivity.
Qed.

Lemma map_satellite_parameters_output_format_witness :
  all_valid sample_olog "Thermal Infrared" "high altitude" "Urban" "SUBTLE"
  = true /\
  exists payload,
    run (map_satellite_parameters
           "Thermal Infrared" "high altitude" "Urban" "SUBTLE") sample_olog
    = Ok (Dumps payload) /\
    member "output_format" payload =
    Some (JStr "60-80 words, natural sentence flow, vivid artistic language, ending with 'highly detailed, 8k, satellite imagery aesthetic'").
Proof.
  split; [reflexivity|].
  exact (map_satellite_parameters_output_format sample_olog
           "Thermal Infrared" "high altitude" "Urban" "SUBTLE" eq_refl).
Defined.

(** C8.  No tool changes the four tables, and a call made after any
    sequence of other calls returns what the same call returns on the
    tables as loaded. *)
Theorem tools_are_stateless (c : call) (before : list call) (g : olog) :
  snd (dispatch c g) = g /\
  serve before g = g /\
  serve (before ++ [c])%list g = g /\
  run (dispatch c) (serve before g) = run (dispatch c) g.
Proof.
  rewrite !serve_unchanged. repeat split. apply read_only_dispatch.
Qed.




(** C10.  The selection never fails: for a matched strength whose
    characteristics count N is not negative, [selected_characteristics]
    has min(N, 8) entries, and a count above 8 yields all eight
    characteristics. *)
Theorem selection_is_total_and_capped
    (g : olog) (t a f s : string) (sd : AestheticStrength.t)
    (Hvalid : all_valid g t a f s = true)
    (Hs : dict_get (aesthetic_strength g) (normalize_key s) = Some sd)
    (HN : (0 <= AestheticStrength.characteristics sd)%Z) :
  let N := AestheticStrength.characteristics sd in
  exists payload selected,
    run (map_satellite_parameters t a f s) g = Ok (Dumps payload) /\
    member "selected_characteristics" payload = Some (JDict selected) /\
    length selected = Z.to_nat (Z.min N 8) /\
    ((8 < N)%Z ->
     member "all_available_characteristics" payload = Some (JDict selected) /\
     length selected = 8).
Proof.
  intros N.
  destruct (all_valid_get g t a f s Hvalid)
    as (p & ad & fd & sd' & Hp & Had & Hfd & Hsd).
  rewrite Hs in Hsd. injection Hsd as <-.
  unfold run.
  rewrite (map_satellite_parameters_valid g t a f s p ad fd sd) by assumption.
  eexists. eexists. split; [reflexivity|].
  unfold mapped_parameters. cbn [member obj dict_of_items fold_left dict_set
    dict_get fst snd String.eqb Ascii.eqb Bool.eqb].
  rewrite !json_of_items_distinct
    by auto using slice_to_distinct, all_characteristics_distinct.
  rewrite slice_to_nonneg by assumption.
  split; [reflexivity|]. fold N. split.
  - rewrite length_map, length_firstn. simpl length. lia.
  - intros Hbig. rewrite firstn_all2 by (simpl length; lia).
    split; reflexivity.
Qed.

(** A strength that asks for twelve characteristics gets the eight there
    are. *)
Lemma selection_is_total_and_capped_witness :
  all_valid oversized_olog "True Color RGB" "orbital" "mixed" "Extreme" = true /\
  exists payload selected,
    run (map_satellite_parameters "True Color RGB" "orbital" "mixed" "Extreme")
        oversized_olog = Ok (Dumps payload) /\
    member "selected_characteristics" payload = Some (JDict selected) /\
    member "all_available_characteristics" payload = Some (JDict selected) /\
    length selected = 8.
Proof.
  split; [reflexivity|].
  destruct (selection_is_total_and_capped oversized_olog
              "True Color RGB" "orbital" "mixed" "Extreme"
              (AestheticStrength.Build 12 "extreme.approach")
              eq_refl eq_refl)
    as (payload & selected & Hrun & Hsel & _ & Hcap).
  - simpl. lia.
  - exists payload, selected.
    destruct Hcap as [Hall Hlen]; [simpl; lia|].
    repeat split; assumption.
Defined.

(** * Further properties of the server *)

(** ** Normalization *)

Ltac each_ascii c :=
  let b0 := fresh in let b1 := fresh in let b2 := fresh in
  let b3 := fresh in let b4 := fresh in let b5 := fresh in
  let b6 := fresh in let b7 := fresh in
  destruct c as [b0 b1 b2 b3 b4 b5 b6 b7];
  destruct b0, b1, b2, b3, b4, b5, b6, b7.

Lemma string_forall_map (p : ascii -> bool) (h : ascii -> ascii) (s : string) :
  string_forall p (map_string h s) = string_forall (fun c => p (h c)) s.
Proof.
  induction s as [|c s IH]; simpl; [reflexivity | now rewrite IH].
Qed.

Lemma string_forall_always (p : ascii -> bool) (s : string) :
  (forall c, p c = true) -> string_forall p s = true.
Proof.
  intros H. induction s as [|c s IH]; simpl; [reflexivity | now rewrite H, IH].
Qed.

Lemma map_string_length (h : ascii -> ascii) (s : string) :
  String.length (map_string h s) = String.length s.
Proof.
  induction s as [|c s IH]; simpl; [reflexivity | now rewrite IH].
Qed.

Lemma normalized_char_canonical (c : ascii) :
  let c' := if Ascii.eqb (lower_char c) " " then "_"%char else lower_char c in
  negb (is_upper c') && negb (Ascii.eqb c' " ") = true.
Proof. each_ascii c; reflexivity. Qed.

Lemma normalized_char_fixed (c : ascii) :
  Ascii.eqb (if Ascii.eqb (lower_char c) " " then "_"%char else lower_char c) c
  = negb (is_upper c) && negb (Ascii.eqb c " ").
Proof. each_ascii c; reflexivity. Qed.

Lemma canonical_normalize_key (s : string) : canonical (normalize_key s) = true.
Proof.
  rewrite normalize_key_charwise. unfold canonical. rewrite string_forall_map.
  apply string_forall_always. intros c. apply normalized_char_canonical.
Qed.

Lemma canonical_iff_fixed (s : string) :
  canonical s = true <-> normalize_key s = s.
Proof.
  rewrite normalize_key_charwise. unfold canonical.
  induction s as [|c s IH]; simpl.
  - tauto.
  - rewrite andb_true_iff, IH, <- normalized_char_fixed, Ascii.eqb_eq.
    split.
    + intros [Hc Hs]. now rewrite Hc, Hs.
    + intros [= Hc Hs]. now rewrite Hc at 1.
Qed.

(** X1.  The result of normalization has no ASCII capital and no space,
    and normalization keeps the length of an ASCII identifier: nothing is
    trimmed or inserted, and the result is ASCII again. *)
Theorem normalize_key_is_canonical (s : string) :
  canonical (normalize_key s) = true /\
  (ascii_only s = true ->
   String.length (normalize_key s) = String.length s /\
   ascii_only (normalize_key s) = true).
Proof.
  split; [apply canonical_normalize_key|].
  rewrite normalize_key_charwise. intros H. split.
  - apply map_string_length.
  - unfold ascii_only in *. rewrite string_forall_map.
    induction s as [|c s IH]; simpl in *; [reflexivity|].
    apply andb_true_iff in H. destruct H as [Hc Hs].
    rewrite (IH Hs), andb_true_r. clear IH Hs. revert Hc.
    each_ascii c; intros Hc; try reflexivity; discriminate Hc.
Qed.

Lemma normalize_key_is_canonical_witness :
  ascii_only " High Altitude " = true /\
  String.length (normalize_key " High Altitude ") = 15 /\
  ascii_only (normalize_key " High Altitude ") = true.
Proof.
  split; [reflexivity|].
  exact (proj2 (normalize_key_is_canonical " High Altitude ") eq_refl).
Defined.

(** X2.  The ASCII identifiers that normalization leaves as they are, are
    exactly those without capitals and spaces. *)
Theorem normalize_key_fixed_points (s : string)
    (Hascii : ascii_only s = true) :
  normalize_key s = s <-> canonical s = true.
Proof. symmetry. apply canonical_iff_fixed. Qed.

Lemma normalize_key_fixed_points_witness :
  ascii_only "synthetic_aperture_radar" = true /\
  canonical "synthetic_aperture_radar" = true /\
  normalize_key "synthetic_aperture_radar" = "synthetic_aperture_radar".
Proof.
  split; [reflexivity|]. split; [reflexivity|].
  exact (proj2 (normalize_key_fixed_points "synthetic_aperture_radar" eq_refl)
           eq_refl).
Defined.

(** What [map_satellite_parameters] reports of the identifiers and of the
    matched strength. *)
Lemma mapped_parameters_ids (ti ai fi si : string)
    (p : ImageryProfile.t) (ad : AltitudePerspective.t)
    (fd : FeatureEmphasis.t) (sd : AestheticStrength.t) :
  let j := mapped_parameters ti ai fi si p ad fd sd in
  member "imagery_type" j = Some (JStr ti) /\
  member2 "altitude_perspective" "type" j = Some (JStr ai) /\
  member2 "feature_emphasis" "type" j = Some (JStr fi) /\
  member2 "aesthetic_strength" "type" j = Some (JStr si) /\
  member "profile_name" j = Some (JStr (ImageryProfile.name p)) /\
  member2 "aesthetic_strength" "characteristic_count" j
  = Some (JInt (AestheticStrength.characteristics sd)).
Proof. repeat split. Qed.

(** The two outcomes of [map_satellite_parameters]. *)
Lemma map_satellite_parameters_cases (g : olog) (t a f s : string) :
  (all_valid g t a f s = true /\
   exists p ad fd sd,
     dict_get (imagery_profiles g) (normalize_key t) = Some p /\
     dict_get (altitude_perspectives g) (normalize_key a) = Some ad /\
     dict_get (feature_emphasis g) (normalize_key f) = Some fd /\
     dict_get (aesthetic_strength g) (normalize_key s) = Some sd /\
     run (map_satellite_parameters t a f s) g =
     Ok (Dumps (mapped_parameters (normalize_key t) (normalize_key a)
                  (normalize_key f) (normalize_key s) p ad fd sd)))
  \/
  (all_valid g t a f s = false /\
   run (map_satellite_parameters t a f s) g =
   Ok (Dumps (JDict [("errors",
                      JList (map JStr (unknown_messages g t a f s)))]))).
Proof.
  destruct (all_valid g t a f s) eqn:Hv; [left | right]; split; try reflexivity.
  - destruct (all_valid_get g t a f s Hv) as (p & ad & fd & sd & Hp & Ha & Hf & Hs).
    exists p, ad, fd, sd. repeat (split; [assumption|]).
    unfold run. now rewrite (map_satellite_parameters_valid g t a f s p ad fd sd).
  - unfold run. now rewrite map_satellite_parameters_invalid.
Qed.

(** X3.  An identifier a tool returns is a key of its table and is in
    normalized form: a key written with capitals or spaces is never
    returned, whatever is asked. *)
Theorem returned_identifiers_are_canonical_keys
    (g : olog) (t a f s : string) (payload : json) (k : string) :
  (payload_of (run (get_imagery_profile t) g) = Some payload ->
   member "imagery_type" payload = Some (JStr k) ->
   In k (dict_keys (imagery_profiles g)) /\ canonical k = true) /\
  (payload_of (run (map_satellite_parameters t a f s) g) = Some payload ->
   (member "imagery_type" payload = Some (JStr k) ->
    In k (dict_keys (imagery_profiles g)) /\ canonical k = true) /\
   (member2 "altitude_perspective" "type" payload = Some (JStr k) ->
    In k (dict_keys (altitude_perspectives g)) /\ canonical k = true) /\
   (member2 "feature_emphasis" "type" payload = Some (JStr k) ->
    In k (dict_keys (feature_emphasis g)) /\ canonical k = true) /\
   (member2 "aesthetic_strength" "type" payload = Some (JStr k) ->
    In k (dict_keys (aesthetic_strength g)) /\ canonical k = true)).
Proof.
  split.
  - unfold run.
    destruct (dict_get (imagery_profiles g) (normalize_key t)) as [p|] eqn:Hp.
    + rewrite (get_imagery_profile_found g t p Hp). simpl.
      intros [= <-] [= <-]. split; [|apply canonical_normalize_key].
      apply dict_mem_In. now apply dict_get_mem in Hp.
    + rewrite (get_imagery_profile_missing g t Hp). simpl.
      intros [= <-]. discriminate.
  - destruct (map_satellite_parameters_cases g t a f s)
      as [(_ & p & ad & fd & sd & Hp & Ha & Hf & Hs & ->) | (_ & ->)].
    + simpl. intros [= <-].
      destruct (mapped_parameters_ids (normalize_key t) (normalize_key a)
                  (normalize_key f) (normalize_key s) p ad fd sd)
        as (-> & -> & -> & -> & _).
      split; [|split; [|split]]; intros [= <-];
        (split; [|apply canonical_normalize_key]);
        apply dict_mem_In; eapply dict_get_mem; eassumption.
    + simpl. intros [= <-]. split; [|split; [|split]]; discriminate.
Qed.

Lemma returned_identifiers_are_canonical_keys_witness :
  payload_of (run (get_imagery_profile "True Color RGB") sample_olog)
  = Some (obj [("imagery_type", JStr "true_color_rgb");
               ("profile",
                 ImageryProfile.to_json
                   (profile_of (fun id field => id ++ "." ++ field)
                      "true_color_rgb"))]) /\
  In "true_color_rgb" (dict_keys (imagery_profiles sample_olog)) /\
  canonical "true_color_rgb" = true.
Proof.
  split; [reflexivity|].
  exact (proj1 (returned_identifiers_are_canonical_keys sample_olog
                  "True Color RGB" "orbital" "natural" "strong" _
                  "true_color_rgb") eq_refl eq_refl).
Defined.

(** ** The listing tools *)

Lemma list_imagery_types_run (g : olog) :
  list_imagery_types g =
  (Ok (Dumps (obj [("imagery_types",
                     JList (map JStr (dict_keys (imagery_profiles g))));
                   ("count",
                     JInt (Z.of_nat (length (dict_keys (imagery_profiles g)))))])),
   g).
Proof. reflexivity. Qed.

Lemma JStr_in_map (k : string) (l : list string) :
  In (JStr k) (map JStr l) -> In k l.
Proof.
  rewrite in_map_iff. intros (k' & [= ->] & H). exact H.
Qed.

(** X4.  Listing and retrieval round-trip: every identifier that
    [list_imagery_types] lists and that is written in ASCII without
    capitals and spaces is accepted by [get_imagery_profile], which returns
    that identifier with the record stored under it; [count] is the number
    of identifiers listed. *)
Theorem listed_types_are_retrievable (g : olog) :
  exists listing ids,
    payload_of (run list_imagery_types g) = Some listing /\
    member "imagery_types" listing = Some (JList ids) /\
    member "count" listing = Some (JInt (Z.of_nat (length ids))) /\
    forall k,
      In (JStr k) ids -> ascii_only k = true -> canonical k = true ->
      exists p,
        dict_get (imagery_profiles g) k = Some p /\
        payload_of (run (get_imagery_profile k) g)
        = Some (obj [("imagery_type", JStr k);
                     ("profile", ImageryProfile.to_json p)]).
Proof.
  unfold run. rewrite list_imagery_types_run.
  eexists. exists (map JStr (dict_keys (imagery_profiles g))).
  split; [reflexivity|]. split; [reflexivity|].
  split; [simpl; now rewrite length_map|].
  intros k Hin _ Hc. apply JStr_in_map, dict_mem_In, dict_mem_get in Hin.
  destruct Hin as [p Hp]. exists p. split; [assumption|].
  apply canonical_iff_fixed in Hc.
  rewrite (get_imagery_profile_found g k p) by now rewrite Hc.
  now rewrite Hc.
Qed.

Lemma listed_types_are_retrievable_witness :
  exists listing ids,
    payload_of (run list_imagery_types sample_olog) = Some listing /\
    member "imagery_types" listing = Some (JList ids) /\
    In (JStr "lidar_elevation") ids /\
    ascii_only "lidar_elevation" = true /\
    canonical "lidar_elevation" = true /\
    exists p,
      payload_of (run (get_imagery_profile "lidar_elevation") sample_olog)
      = Some (obj [("imagery_type", JStr "lidar_elevation");
                   ("profile", ImageryProfile.to_json p)]).
Proof.
  destruct (listed_types_are_retrievable sample_olog)
    as (listing & ids & Hrun & Hids & _ & Hget).
  exists listing, ids. split; [exact Hrun|]. split; [exact Hids|].
  assert (Hin : In (JStr "lidar_elevation") ids).
  { simpl in Hrun. injection Hrun as <-. simpl in Hids. injection Hids as <-.
    simpl. tauto. }
  split; [exact Hin|]. split; [reflexivity|]. split; [reflexivity|].
  destruct (Hget "lidar_elevation" Hin eq_refl eq_refl) as (p & _ & Hp).
  now exists p.
Defined.

(** X5.  When [get_imagery_profile] does not know an identifier, the
    alternatives it offers are the identifiers [list_imagery_types] lists,
    in the same order. *)
Theorem available_is_the_listing (g : olog) (t : string)
    (Hmiss : dict_mem (normalize_key t) (imagery_profiles g) = false) :
  exists listing failure ids,
    payload_of (run list_imagery_types g) = Some listing /\
    payload_of (run (get_imagery_profile t) g) = Some failure /\
    member "imagery_types" listing = Some (JList ids) /\
    member "available" failure = Some (JList ids).
Proof.
  apply dict_get_None_mem in Hmiss. unfold run.
  rewrite list_imagery_types_run, (get_imagery_profile_missing g t Hmiss).
  eexists. eexists. eexists. repeat split.
Qed.

Lemma available_is_the_listing_witness :
  dict_mem (normalize_key "Radar") (imagery_profiles sample_olog) = false /\
  exists listing failure ids,
    payload_of (run list_imagery_types sample_olog) = Some listing /\
    payload_of (run (get_imagery_profile "Radar") sample_olog) = Some failure /\
    member "imagery_types" listing = Some (JList ids) /\
    member "available" failure = Some (JList ids).
Proof.
  split; [reflexivity|].
  exact (available_is_the_listing sample_olog "Radar" eq_refl).
Defined.

Lemma dict_get_map_values {V W : Type} (h : V -> W) (d : dict V) (k : string) :
  dict_get (map (fun kv => (fst kv, h (snd kv))) d) k
  = option_map h (dict_get d k).
Proof.
  induction d as [|[k' v] d IH]; simpl; [reflexivity|].
  now destruct (String.eqb k' k).
Qed.

Lemma dict_keys_map_values {V W : Type} (h : V -> W) (d : dict V) :
  dict_keys (map (fun kv => (fst kv, h (snd kv))) d) = dict_keys d.
Proof.
  unfold dict_keys. rewrite map_map. reflexivity.
Qed.

(** The [details] a listing tool builds from a table whose keys are
    distinct: the same keys in the same order, each with the JSON of its
    record. *)
Lemma details_of_table {V : Type} (h : V -> json) (d : dict V) :
  NoDup (dict_keys d) ->
  exists details,
    json_of_dict h (dict_of_items (dict_items d)) = JDict details /\
    dict_keys details = dict_keys d /\
    forall k, dict_get details k = option_map h (dict_get d k).
Proof.
  intros H. unfold dict_items. rewrite (json_of_items_distinct h d H).
  eexists. split; [reflexivity|]. split.
  - apply dict_keys_map_values.
  - intros k. apply dict_get_map_values.
Qed.

(** X6.  In the answers of [list_altitude_perspectives],
    [list_feature_emphasis_options] and [list_aesthetic_strengths], over
    tables whose keys are distinct (as the keys of a dictionary are),
    [details] has exactly the identifiers listed, in the order listed, and
    gives for each the record stored under it. *)
Theorem listings_agree_with_their_details (g : olog) :
  (NoDup (dict_keys (altitude_perspectives g)) ->
   exists payload ids details,
     payload_of (run list_altitude_perspectives g) = Some payload /\
     member "perspectives" payload = Some (JList (map JStr ids)) /\
     entries "details" payload = Some details /\
     ids = dict_keys (altitude_perspectives g) /\
     dict_keys details = ids /\
     forall k, dict_get details k
               = option_map AltitudePerspective.to_json
                   (dict_get (altitude_perspectives g) k)) /\
  (NoDup (dict_keys (feature_emphasis g)) ->
   exists payload ids details,
     payload_of (run list_feature_emphasis_options g) = Some payload /\
     member "options" payload = Some (JList (map JStr ids)) /\
     entries "details" payload = Some details /\
     ids = dict_keys (feature_emphasis g) /\
     dict_keys details = ids /\
     forall k, dict_get details k
               = option_map FeatureEmphasis.to_json
                   (dict_get (feature_emphasis g) k)) /\
  (NoDup (dict_keys (aesthetic_strength g)) ->
   exists payload ids details,
     payload_of (run list_aesthetic_strengths g) = Some payload /\
     member "strengths" payload = Some (JList (map JStr ids)) /\
     entries "details" payload = Some details /\
     ids = dict_keys (aesthetic_strength g) /\
     dict_keys details = ids /\
     forall k, dict_get details k
               = option_map AestheticStrength.to_json
                   (dict_get (aesthetic_strength g) k)).
Proof.
  split; [|split]; intros H.
  - destruct (details_of_table AltitudePerspective.to_json _ H)
      as (details & Hd & Hk & Hg).
    eexists. exists (dict_keys (altitude_perspectives g)), details.
    unfold list_altitude_perspectives. unfold_monad. rewrite Hd.
    repeat split; assumption.
  - destruct (details_of_table FeatureEmphasis.to_json _ H)
      as (details & Hd & Hk & Hg).
    eexists. exists (dict_keys (feature_emphasis g)), details.
    unfold list_feature_emphasis_options. unfold_monad. rewrite Hd.
    repeat split; assumption.
  - destruct (details_of_table AestheticStrength.to_json _ H)
      as (details & Hd & Hk & Hg).
    eexists. exists (dict_keys (aesthetic_strength g)), details.
    unfold list_aesthetic_strengths. unfold_monad. rewrite Hd.
    repeat split; assumption.
Qed.

Lemma listings_agree_with_their_details_witness :
  NoDup (dict_keys (aesthetic_strength sample_olog)) /\
  exists payload ids details,
    payload_of (run list_aesthetic_strengths sample_olog) = Some payload /\
    member "strengths" payload = Some (JList (map JStr ids)) /\
    entries "details" payload = Some details /\
    ids = ["subtle"; "balanced"; "strong"] /\
    dict_keys details = ids /\
    dict_get details "strong"
    = Some (AestheticStrength.to_json
              (AestheticStrength.Build 6 "strong.approach")).
Proof.
  assert (H : NoDup (dict_keys (aesthetic_strength sample_olog)))
    by (apply NoDup_by_count; reflexivity).
  split; [exact H|].
  destruct (proj2 (proj2 (listings_agree_with_their_details sample_olog)) H)
    as (payload & ids & details & Hrun & Hids & Hdet & Hk & Hdk & Hget).
  exists payload, ids, details. repeat split; try assumption.
  exact (Hget "strong").
Defined.

(** ** The selection of characteristics *)

Lemma slice_to_map {A B : Type} (h : A -> B) (l : list A) (n : Z) :
  slice_to (map h l) n = map h (slice_to l n).
Proof. unfold slice_to. now rewrite length_map, firstn_map. Qed.

Lemma slice_to_length {A : Type} (l : list A) (n : Z) :
  Z.of_nat (length (slice_to l n)) =
  (if n <? 0 then Z.max 0 (n + Z.of_nat (length l))
   else Z.min n (Z.of_nat (length l)))%Z.
Proof.
  unfold slice_to. rewrite length_firstn.
  destruct (Z.ltb_spec n 0); lia.
Qed.

Lemma firstn_min_length {A : Type} (n : nat) (l : list A) :
  firstn (Nat.min n (length l)) l = firstn n l.
Proof.
  destruct (Nat.le_ge_cases n (length l)) as [H|H].
  - now rewrite Nat.min_l.
  - rewrite Nat.min_r by assumption.
    rewrite !firstn_all2; [reflexivity | assumption | apply Nat.le_refl].
Qed.

Lemma dict_get_firstn {V : Type} (d : dict V) (n : nat) (k : string) (v : V) :
  dict_get (firstn n d) k = Some v -> dict_get d k = Some v.
Proof.
  revert n. induction d as [|[k' v'] d IH]; intros [|n]; simpl;
    try discriminate.
  destruct (String.eqb k' k); [tauto | apply IH].
Qed.

(** The two dictionaries of characteristics in the answer of
    [map_satellite_parameters]: the eight of the profile, and the slice of
    them that the count of the strength takes. *)
Lemma mapped_parameters_selection (ti ai fi si : string)
    (p : ImageryProfile.t) (ad : AltitudePerspective.t)
    (fd : FeatureEmphasis.t) (sd : AestheticStrength.t) :
  let j := mapped_parameters ti ai fi si p ad fd sd in
  let available :=
    map (fun kv => (fst kv, JStr (snd kv))) (all_characteristics_of p) in
  entries "all_available_characteristics" j = Some available /\
  entries "selected_characteristics" j
  = Some (slice_to available (AestheticStrength.characteristics sd)) /\
  length available = 8.
Proof.
  cbv zeta. unfold mapped_parameters, entries.
  cbn [member obj dict_of_items fold_left dict_set dict_get fst snd
       String.eqb Ascii.eqb Bool.eqb].
  rewrite !json_of_items_distinct
    by auto using slice_to_distinct, all_characteristics_distinct.
  rewrite slice_to_map. repeat split.
Qed.

(** X7.  Whatever the count of the matched strength, negative or too large
    included, [selected_characteristics] is a prefix of
    [all_available_characteristics]: every selected characteristic is an
    available one with the same text, in the same order. *)
Theorem selection_is_a_prefix_of_available
    (g : olog) (t a f s : string)
    (Hvalid : all_valid g t a f s = true) :
  exists payload selected available,
    payload_of (run (map_satellite_parameters t a f s) g) = Some payload /\
    entries "selected_characteristics" payload = Some selected /\
    entries "all_available_characteristics" payload = Some available /\
    length available = 8 /\
    selected = firstn (length selected) available /\
    forall k v, dict_get selected k = Some v -> dict_get available k = Some v.
Proof.
  destruct (map_satellite_parameters_cases g t a f s)
    as [(_ & p & ad & fd & sd & _ & _ & _ & _ & ->) | (Hv & _)];
    [|congruence].
  destruct (mapped_parameters_selection (normalize_key t) (normalize_key a)
              (normalize_key f) (normalize_key s) p ad fd sd)
    as (Hall & Hsel & Hlen).
  eexists. eexists. eexists. split; [reflexivity|].
  split; [exact Hsel|]. split; [exact Hall|]. split; [exact Hlen|].
  unfold slice_to. split.
  - now rewrite length_firstn, firstn_min_length.
  - intros k v. apply dict_get_firstn.
Qed.

Lemma selection_is_a_prefix_of_available_witness :
  all_valid negative_olog "thermal infrared" "orbital" "urban" "inverse" = true /\
  exists payload selected available,
    payload_of (run (map_satellite_parameters
                       "thermal infrared" "orbital" "urban" "inverse")
                    negative_olog) = Some payload /\
    entries "selected_characteristics" payload = Some selected /\
    entries "all_available_characteristics" payload = Some available /\
    length available = 8 /\
    selected = firstn (length selected) available.
Proof.
  split; [reflexivity|].
  destruct (selection_is_a_prefix_of_available negative_olog
              "thermal infrared" "orbital" "urban" "inverse" eq_refl)
    as (payload & selected & available & Hrun & Hsel & Hall & Hlen & Hpre & _).
  exists payload, selected, available. repeat split; assumption.
Defined.

(** X8.  A negative count -m selects all but the last m characteristics,
    and nothing when m is 8 or more: the slice counts from the end. *)
Theorem negative_count_drops_from_the_end
    (g : olog) (t a f s : string) (sd : AestheticStrength.t)
    (Hvalid : all_valid g t a f s = true)
    (Hs : dict_get (aesthetic_strength g) (normalize_key s) = Some sd)
    (HN : (AestheticStrength.characteristics sd < 0)%Z) :
  exists payload selected,
    payload_of (run (map_satellite_parameters t a f s) g) = Some payload /\
    entries "selected_characteristics" payload = Some selected /\
    Z.of_nat (length selected)
    = Z.max 0 (8 + AestheticStrength.characteristics sd) /\
    ((AestheticStrength.characteristics sd <= -8)%Z -> selected = []).
Proof.
  destruct (map_satellite_parameters_cases g t a f s)
    as [(_ & p & ad & fd & sd' & _ & _ & _ & Hs' & ->) | (Hv & _)];
    [|congruence].
  rewrite Hs in Hs'. injection Hs' as <-.
  destruct (mapped_parameters_selection (normalize_key t) (normalize_key a)
              (normalize_key f) (normalize_key s) p ad fd sd)
    as (_ & Hsel & Hlen).
  eexists. eexists. split; [reflexivity|]. split; [exact Hsel|].
  assert (Hsize : Z.of_nat (length
            (slice_to (map (fun kv => (fst kv, JStr (snd kv)))
                         (all_characteristics_of p))
               (AestheticStrength.characteristics sd)))
          = Z.max 0 (8 + AestheticStrength.characteristics sd)).
  { rewrite slice_to_length, Hlen.
    destruct (Z.ltb_spec (AestheticStrength.characteristics sd) 0); lia. }
  split; [exact Hsize|].
  intros Hfar. apply length_zero_iff_nil. lia.
Qed.

Lemma negative_count_drops_from_the_end_witness :
  all_valid negative_olog "thermal infrared" "orbital" "urban" "inverse" = true /\
  (exists payload selected,
    payload_of (run (map_satellite_parameters
                       "thermal infrared" "orbital" "urban" "inverse")
                    negative_olog) = Some payload /\
    entries "selected_characteristics" payload = Some selected /\
    Z.of_nat (length selected) = 5%Z) /\
  (exists payload,
    payload_of (run (map_satellite_parameters
                       "thermal infrared" "orbital" "urban" "void")
                    negative_olog) = Some payload /\
    entries "selected_characteristics" payload = Some []).
Proof.
  split; [reflexivity|]. split.
  - destruct (negative_count_drops_from_the_end negative_olog
                "thermal infrared" "orbital" "urban" "inverse"
                (AestheticStrength.Build (-3) "inverse.approach")
                eq_refl eq_refl)
      as (payload & selected & Hrun & Hsel & Hlen & _); [simpl; lia|].
    exists payload, selected. repeat split; assumption.
  - destruct (negative_count_drops_from_the_end negative_olog
                "thermal infrared" "orbital" "urban" "void"
                (AestheticStrength.Build (-20) "void.approach")
                eq_refl eq_refl)
      as (payload & selected & Hrun & Hsel & _ & Hnil); [simpl; lia|].
    exists payload. split; [exact Hrun|].
    rewrite Hsel. f_equal. apply Hnil. simpl. lia.
Defined.

(** X9.  The answer reports as [characteristic_count] the count stored in
    the table, not the number of characteristics it selected: the two agree
    exactly when the stored count is between 0 and 8. *)
Theorem reported_count_vs_selection
    (g : olog) (t a f s : string) (sd : AestheticStrength.t)
    (Hvalid : all_valid g t a f s = true)
    (Hs : dict_get (aesthetic_strength g) (normalize_key s) = Some sd) :
  let N := AestheticStrength.characteristics sd in
  exists payload selected,
    payload_of (run (map_satellite_parameters t a f s) g) = Some payload /\
    member2 "aesthetic_strength" "characteristic_count" payload
    = Some (JInt N) /\
    entries "selected_characteristics" payload = Some selected /\
    (Z.of_nat (length selected) = N <-> (0 <= N <= 8)%Z).
Proof.
  intros N.
  destruct (map_satellite_parameters_cases g t a f s)
    as [(_ & p & ad & fd & sd' & _ & _ & _ & Hs' & ->) | (Hv & _)];
    [|congruence].
  rewrite Hs in Hs'. injection Hs' as <-.
  destruct (mapped_parameters_selection (normalize_key t) (normalize_key a)
              (normalize_key f) (normalize_key s) p ad fd sd)
    as (_ & Hsel & Hlen).
  eexists. eexists. split; [reflexivity|].
  split; [apply mapped_parameters_ids|]. split; [exact Hsel|].
  rewrite slice_to_length, Hlen. fold N.
  destruct (Z.ltb_spec N 0); lia.
Qed.

Lemma reported_count_vs_selection_witness :
  all_valid oversized_olog "True Color RGB" "orbital" "mixed" "Extreme" = true /\
  exists payload selected,
    payload_of (run (map_satellite_parameters
                       "True Color RGB" "orbital" "mixed" "Extreme")
                    oversized_olog) = Some payload /\
    member2 "aesthetic_strength" "characteristic_count" payload
    = Some (JInt 12) /\
    entries "selected_characteristics" payload = Some selected /\
    Z.of_nat (length selected) <> 12%Z.
Proof.
  split; [reflexivity|].
  destruct (reported_count_vs_selection oversized_olog
              "True Color RGB" "orbital" "mixed" "Extreme"
              (AestheticStrength.Build 12 "extreme.approach")
              eq_refl eq_refl)
    as (payload & selected & Hrun & Hcount & Hsel & Hiff).
  exists payload, selected. repeat split; try assumption.
  intros H. apply Hiff in H. simpl in H. lia.
Defined.

(** X10.  Apart from [altitude_perspective] and [feature_emphasis], the
    members of a mapping depend on the imagery type and the strength only:
    two valid calls that differ in altitude and feature emphasis agree on
    all the others, the two dictionaries of characteristics included. *)
Theorem selection_ignores_altitude_and_feature
    (g : olog) (t s a1 f1 a2 f2 : string)
    (H1 : all_valid g t a1 f1 s = true)
    (H2 : all_valid g t a2 f2 s = true) :
  exists payload1 payload2,
    payload_of (run (map_satellite_parameters t a1 f1 s) g) = Some payload1 /\
    payload_of (run (map_satellite_parameters t a2 f2 s) g) = Some payload2 /\
    (forall k,
       In k ["imagery_type"; "profile_name"; "aesthetic_strength";
             "selected_characteristics"; "all_available_characteristics";
             "examples"; "output_format"] ->
       member k payload1 = member k payload2).
Proof.
  destruct (map_satellite_parameters_cases g t a1 f1 s)
    as [(_ & p & ad1 & fd1 & sd & Hp & _ & _ & Hs & ->) | (Hv & _)];
    [|congruence].
  destruct (map_satellite_parameters_cases g t a2 f2 s)
    as [(_ & p' & ad2 & fd2 & sd' & Hp' & _ & _ & Hs' & ->) | (Hv & _)];
    [|congruence].
  rewrite Hp in Hp'. injection Hp' as <-.
  rewrite Hs in Hs'. injection Hs' as <-.
  eexists. eexists. split; [reflexivity|]. split; [reflexivity|].
  intros k Hk. simpl in Hk.
  repeat (destruct Hk as [<- | Hk]; [reflexivity|]). contradiction.
Qed.

Lemma selection_ignores_altitude_and_feature_witness :
  all_valid sample_olog "lidar elevation" "orbital" "urban" "balanced" = true /\
  all_valid sample_olog "lidar elevation" "low altitude" "mixed" "balanced"
  = true /\
  exists payload1 payload2,
    payload_of (run (map_satellite_parameters
                       "lidar elevation" "orbital" "urban" "balanced")
                    sample_olog) = Some payload1 /\
    payload_of (run (map_satellite_parameters
                       "lidar elevation" "low altitude" "mixed" "balanced")
                    sample_olog) = Some payload2 /\
    member "selected_characteristics" payload1
    = member "selected_characteristics" payload2.
Proof.
  split; [reflexivity|]. split; [reflexivity|].
  destruct (selection_ignores_altitude_and_feature sample_olog
              "lidar elevation" "balanced" "orbital" "urban"
              "low altitude" "mixed" eq_refl eq_refl)
    as (payload1 & payload2 & Hrun1 & Hrun2 & Hsame).
  exists payload1, payload2. repeat split; try assumption.
  apply Hsame. simpl. tauto.
Defined.

(** X11.  A strength with a larger count selects more of the same profile:
    for counts 0 <= N1 <= N2, what the first call selects is the beginning
    of what the second selects. *)
Theorem larger_count_selects_more
    (g : olog) (t a1 f1 s1 a2 f2 s2 : string)
    (sd1 sd2 : AestheticStrength.t)
    (H1 : all_valid g t a1 f1 s1 = true)
    (H2 : all_valid g t a2 f2 s2 = true)
    (Hs1 : dict_get (aesthetic_strength g) (normalize_key s1) = Some sd1)
    (Hs2 : dict_get (aesthetic_strength g) (normalize_key s2) = Some sd2)
    (HN : (0 <= AestheticStrength.characteristics sd1
           <= AestheticStrength.characteristics sd2)%Z) :
  exists payload1 payload2 selected1 selected2,
    payload_of (run (map_satellite_parameters t a1 f1 s1) g) = Some payload1 /\
    payload_of (run (map_satellite_parameters t a2 f2 s2) g) = Some payload2 /\
    entries "selected_characteristics" payload1 = Some selected1 /\
    entries "selected_characteristics" payload2 = Some selected2 /\
    selected1 = firstn (length selected1) selected2 /\
    length selected1 <= length selected2.
Proof.
  destruct (map_satellite_parameters_cases g t a1 f1 s1)
    as [(_ & p & ad1 & fd1 & sd1' & Hp & _ & _ & Hs1' & ->) | (Hv & _)];
    [|congruence].
  destruct (map_satellite_parameters_cases g t a2 f2 s2)
    as [(_ & p' & ad2 & fd2 & sd2' & Hp' & _ & _ & Hs2' & ->) | (Hv & _)];
    [|congruence].
  rewrite Hp in Hp'. injection Hp' as <-.
  rewrite Hs1 in Hs1'. injection Hs1' as <-.
  rewrite Hs2 in Hs2'. injection Hs2' as <-.
  destruct (mapped_parameters_selection (normalize_key t) (normalize_key a1)
              (normalize_key f1) (normalize_key s1) p ad1 fd1 sd1)
    as (_ & Hsel1 & _).
  destruct (mapped_parameters_selection (normalize_key t) (normalize_key a2)
              (normalize_key f2) (normalize_key s2) p ad2 fd2 sd2)
    as (_ & Hsel2 & _).
  eexists. eexists. eexists. eexists.
  split; [reflexivity|]. split; [reflexivity|].
  split; [exact Hsel1|]. split; [exact Hsel2|].
  rewrite !slice_to_nonneg by lia.
  rewrite !length_firstn, firstn_firstn.
  assert (Hle : Z.to_nat (AestheticStrength.characteristics sd1)
                <= Z.to_nat (AestheticStrength.characteristics sd2)) by lia.
  split; [|lia].
  rewrite <- Nat.min_assoc, (Nat.min_comm (length _)), Nat.min_assoc.
  rewrite (Nat.min_l _ _ Hle). symmetry. apply firstn_min_length.
Qed.

Lemma larger_count_selects_more_witness :
  all_valid sample_olog "thermal infrared" "orbital" "urban" "balanced" = true /\
  all_valid sample_olog "thermal infrared" "orbital" "urban" "strong" = true /\
  exists payload1 payload2 selected1 selected2,
    payload_of (run (map_satellite_parameters
                       "thermal infrared" "orbital" "urban" "balanced")
                    sample_olog) = Some payload1 /\
    payload_of (run (map_satellite_parameters
                       "thermal infrared" "orbital" "urban" "strong")
                    sample_olog) = Some payload2 /\
    entries "selected_characteristics" payload1 = Some selected1 /\
    entries "selected_characteristics" payload2 = Some selected2 /\
    selected1 = firstn (length selected1) selected2 /\
    length selected1 <= length selected2.
Proof.
  split; [reflexivity|]. split; [reflexivity|].
  refine (larger_count_selects_more sample_olog
            "thermal infrared" "orbital" "urban" "balanced"
            "orbital" "urban" "strong"
            (AestheticStrength.Build 4 "balanced.approach")
            (AestheticStrength.Build 6 "strong.approach")
            eq_refl eq_refl eq_refl eq_refl _).
  simpl. lia.
Defined.

(** ** All the tools together *)

(** X12.  No subscript of a table ([imagery_profiles[k]],
    [altitude_perspectives[k]], [feature_emphasis[k]],
    [aesthetic_strength[k]]) raises [KeyError], whatever is asked and
    whichever keys the tables have: each one comes after a membership test
    of the same key.  (The subscripts of a record, such as
    [profile["mood"]], are not part of the statement: a record is modelled
    with all the fields of the data file.) *)
Theorem tools_never_raise (c : call) (g : olog) :
  exists out, run (dispatch c) g = Ok out.
Proof.
  destruct c as [|t| | | |t a f s|t a f s]; simpl.
  - eexists. reflexivity.
  - unfold run.
    destruct (dict_get (imagery_profiles g) (normalize_key t)) as [p|] eqn:Hp.
    + rewrite (get_imagery_profile_found g t p Hp). eexists. reflexivity.
    + rewrite (get_imagery_profile_missing g t Hp). eexists. reflexivity.
  - eexists. reflexivity.
  - eexists. reflexivity.
  - eexists. reflexivity.
  - destruct (map_satellite_parameters_cases g t a f s)
      as [(_ & p & ad & fd & sd & _ & _ & _ & _ & ->) | (_ & ->)];
      eexists; reflexivity.
  - unfold run.
    destruct (dict_get (imagery_profiles g) (normalize_key t)) as [p|] eqn:Hp.
    + rewrite (get_enhancement_guidance_known g t a f s p Hp).
      eexists. reflexivity.
    + apply dict_get_None_mem in Hp.
      rewrite (get_enhancement_guidance_unknown g t a f s Hp).
      eexists. reflexivity.
Qed.

(** X13.  Spelling does not matter when the identifiers are known: two
    requests whose identifiers have the same normalized forms get the same
    answer from [get_imagery_profile], [get_enhancement_guidance] (imagery
    type known) and [map_satellite_parameters] (all four known). *)
Theorem same_normal_forms_same_answer
    (g : olog) (t a f s t' a' f' s' : string)
    (Ht : normalize_key t = normalize_key t')
    (Ha : normalize_key a = normalize_key a')
    (Hf : normalize_key f = normalize_key f')
    (Hs : normalize_key s = normalize_key s') :
  (dict_mem (normalize_key t) (imagery_profiles g) = true ->
   run (get_imagery_profile t) g = run (get_imagery_profile t') g /\
   run (get_enhancement_guidance t a f s) g
   = run (get_enhancement_guidance t' a' f' s') g) /\
  (all_valid g t a f s = true ->
   run (map_satellite_parameters t a f s) g
   = run (map_satellite_parameters t' a' f' s') g).
Proof.
  unfold run. split.
  - intros H. destruct (dict_mem_get _ _ H) as [p Hp].
    rewrite (get_imagery_profile_found g t p Hp).
    rewrite (get_enhancement_guidance_known g t a f s p Hp).
    rewrite Ht in Hp.
    rewrite (get_imagery_profile_found g t' p Hp).
    rewrite (get_enhancement_guidance_known g t' a' f' s' p Hp).
    now rewrite Ht, Ha, Hf, Hs.
  - intros H.
    destruct (all_valid_get g t a f s H)
      as (p & ad & fd & sd & Hp & Had & Hfd & Hsd).
    rewrite (map_satellite_parameters_valid g t a f s p ad fd sd) by assumption.
    rewrite Ht in Hp. rewrite Ha in Had. rewrite Hf in Hfd. rewrite Hs in Hsd.
    rewrite (map_satellite_parameters_valid g t' a' f' s' p ad fd sd)
      by assumption.
    now rewrite Ht, Ha, Hf, Hs.
Qed.

Lemma same_normal_forms_same_answer_witness :
  normalize_key "True Color RGB" = normalize_key "TRUE_COLOR rgb" /\
  all_valid sample_olog "True Color RGB" "High Altitude" "MIXED" "Subtle"
  = true /\
  run (get_imagery_profile "True Color RGB") sample_olog
  = run (get_imagery_profile "TRUE_COLOR rgb") sample_olog /\
  run (map_satellite_parameters
         "True Color RGB" "High Altitude" "MIXED" "Subtle") sample_olog
  = run (map_satellite_parameters
           "TRUE_COLOR rgb" "high_altitude" "mixed" "SUBTLE") sample_olog.
Proof.
  split; [reflexivity|]. split; [reflexivity|].
  destruct (same_normal_forms_same_answer sample_olog
              "True Color RGB" "High Altitude" "MIXED" "Subtle"
              "TRUE_COLOR rgb" "high_altitude" "mixed" "SUBTLE"
              eq_refl eq_refl eq_refl eq_refl) as [Hone Hmap].
  split; [exact (proj1 (Hone eq_refl)) | exact (Hmap eq_refl)].
Defined.

(** X14.  [get_imagery_profile] and [get_enhancement_guidance] reject the
    same imagery types with the same message; the guidance gives no list
    of alternatives.  On a known imagery type neither reports an error. *)
Theorem guidance_and_profile_reject_alike (g : olog) (t a f s : string) :
  (dict_mem (normalize_key t) (imagery_profiles g) = false ->
   exists failure1 failure2,
     payload_of (run (get_imagery_profile t) g) = Some failure1 /\
     payload_of (run (get_enhancement_guidance t a f s) g) = Some failure2 /\
     member "error" failure1 = Some (JStr ("Unknown imagery type: " ++ t)) /\
     member "error" failure2 = member "error" failure1 /\
     members failure1 = ["error"; "available"] /\
     members failure2 = ["error"]) /\
  (dict_mem (normalize_key t) (imagery_profiles g) = true ->
   exists payload text,
     payload_of (run (get_imagery_profile t) g) = Some payload /\
     member "error" payload = None /\
     text_of (run (get_enhancement_guidance t a f s) g) = Some text).
Proof.
  unfold run. split; intros H.
  - rewrite (get_enhancement_guidance_unknown g t a f s H).
    apply dict_get_None_mem in H. rewrite (get_imagery_profile_missing g t H).
    eexists. eexists. repeat split.
  - destruct (dict_mem_get _ _ H) as [p Hp].
    rewrite (get_imagery_profile_found g t p Hp).
    rewrite (get_enhancement_guidance_known g t a f s p Hp).
    eexists. eexists. repeat split.
Qed.

Lemma guidance_and_profile_reject_alike_witness :
  dict_mem (normalize_key "X-Ray") (imagery_profiles sample_olog) = false /\
  exists failure1 failure2,
    payload_of (run (get_imagery_profile "X-Ray") sample_olog)
    = Some failure1 /\
    payload_of (run (get_enhancement_guidance "X-Ray" "orbital" "urban" "strong")
                  sample_olog) = Some failure2 /\
    member "error" failure1 = Some (JStr "Unknown imagery type: X-Ray") /\
    member "error" failure2 = member "error" failure1.
Proof.
  split; [reflexivity|].
  destruct (proj1 (guidance_and_profile_reject_alike sample_olog
                     "X-Ray" "orbital" "urban" "strong") eq_refl)
    as (failure1 & failure2 & H1 & H2 & He1 & He2 & _).
  exists failure1, failure2. repeat split; assumption.
Defined.

(** ** The guidance text *)

Lemma last_of_app {A : Type} (l1 l2 : list A) (d : A) :
  l2 <> [] -> last (l1 ++ l2)%list d = last l2 d.
Proof.
  intros H. induction l1 as [|x l1 IH]; [reflexivity|].
  simpl. rewrite IH. destruct (l1 ++ l2)%list eqn:E; [|reflexivity].
  apply app_eq_nil in E. now elim H.
Qed.

Lemma last_skip (a b l d : string) :
  last (split_lines b) d = l -> last (split_lines (a ++ newline ++ b)) d = l.
Proof.
  intros H. rewrite split_lines_app, last_of_app; [exact H|].
  apply split_lines_nonempty.
Qed.

Lemma last_skip2 (a1 a2 b l d : string) :
  last (split_lines b) d = l ->
  last (split_lines (a1 ++ a2 ++ newline ++ b)) d = l.
Proof. intros H. rewrite <- append_assoc. now apply last_skip. Qed.

Lemma last_skip4 (a1 a2 a3 a4 b l d : string) :
  last (split_lines b) d = l ->
  last (split_lines (a1 ++ a2 ++ a3 ++ a4 ++ newline ++ b)) d = l.
Proof.
  intros H. rewrite <- (append_assoc a3), <- (append_assoc a2),
    <- (append_assoc a1). now apply last_skip.
Qed.

Lemma one_line_split (s : string) : one_line s = true -> split_lines s = [s].
Proof.
  unfold one_line. induction s as [|c s IH]; simpl; [reflexivity|].
  destruct (Ascii.eqb c (ascii_of_nat 10)); simpl; [discriminate|].
  intros H. now rewrite (IH H).
Qed.

Lemma one_line_app (s1 s2 : string) :
  one_line s1 = true -> one_line s2 = true -> one_line (s1 ++ s2) = true.
Proof.
  unfold one_line. induction s1 as [|c s1 IH]; simpl; [tauto|].
  destruct (negb (Ascii.eqb c (ascii_of_nat 10))); simpl; [exact IH | discriminate].
Qed.

Lemma line_here_one_line (a1 a2 b : string) :
  one_line a1 = true -> one_line a2 = true ->
  In (a1 ++ a2) (split_lines (a1 ++ a2 ++ newline ++ b)).
Proof.
  intros H1 H2. apply line_here, one_line_split. now apply one_line_app.
Qed.

(** X15.  The guidance for a known imagery type opens with the title line,
    closes with the fifth reminder, and has no white space around it:
    stripping it again changes nothing. *)
Theorem guidance_text_frame (g : olog) (t a f s : string)
    (Hknown : dict_mem (normalize_key t) (imagery_profiles g) = true) :
  exists text,
    text_of (run (get_enhancement_guidance t a f s) g) = Some text /\
    hd_error (split_lines text)
    = Some "SATELLITE IMAGERY ENHANCEMENT GUIDANCE" /\
    last (split_lines text) ""
    = "5. Never add subjects the user didn't request" /\
    strip text = text.
Proof.
  destruct (dict_mem_get _ _ Hknown) as [p Hp]. unfold run.
  rewrite (get_enhancement_guidance_known g t a f s p Hp).
  eexists. split; [reflexivity|]. split; [|split].
  - unfold guidance_body. now rewrite split_lines_app.
  - unfold guidance_body.
    apply last_skip. apply (last_skip "").
    do 4 apply last_skip2. apply (last_skip ""). apply last_skip.
    do 3 apply last_skip2. apply (last_skip ""). apply last_skip2.
    apply (last_skip ""). do 4 apply last_skip.
    apply last_skip4. reflexivity.
  - unfold strip.
    assert (Hl : lstrip (guidance_body p
                   (dict_get (altitude_perspectives g) (normalize_key a))
                   (dict_get (feature_emphasis g) (normalize_key f))
                   (dict_get (aesthetic_strength g) (normalize_key s)))
                 = guidance_body p
                   (dict_get (altitude_perspectives g) (normalize_key a))
                   (dict_get (feature_emphasis g) (normalize_key f))
                   (dict_get (aesthetic_strength g) (normalize_key s)))
      by reflexivity.
    rewrite Hl. unfold guidance_body.
    apply ends_solid_app. repeat apply ends_solid_app.
    split; [reflexivity | discriminate].
Qed.

Lemma guidance_text_frame_witness :
  dict_mem (normalize_key "Thermal Infrared") (imagery_profiles sample_olog)
  = true /\
  exists text,
    text_of (run (get_enhancement_guidance
                    "Thermal Infrared" "nowhere" "urban" "strong") sample_olog)
    = Some text /\
    hd_error (split_lines text)
    = Some "SATELLITE IMAGERY ENHANCEMENT GUIDANCE" /\
    last (split_lines text) ""
    = "5. Never add subjects the user didn't request" /\
    strip text = text.
Proof.
  split; [reflexivity|].
  exact (guidance_text_frame sample_olog
           "Thermal Infrared" "nowhere" "urban" "strong" eq_refl).
Defined.

(** X16.  What the guidance shows of the records it finds: the name of the
    profile, the description of the altitude, the focus of the feature
    emphasis and the approach of the strength each stand on a line of
    their own after their label, when the text shown has no line break. *)
Theorem guidance_shows_the_records_found
    (g : olog) (t a f s : string) (p : ImageryProfile.t)
    (Hp : dict_get (imagery_profiles g) (normalize_key t) = Some p) :
  exists text,
    text_of (run (get_enhancement_guidance t a f s) g) = Some text /\
    (one_line (ImageryProfile.name p) = true ->
     In ("Imagery Type: " ++ ImageryProfile.name p) (split_lines text)) /\
    (forall ad,
       dict_get (altitude_perspectives g) (normalize_key a) = Some ad ->
       one_line (AltitudePerspective.description ad) = true ->
       In ("Altitude Perspective: " ++ AltitudePerspective.description ad)
          (split_lines text)) /\
    (forall fd,
       dict_get (feature_emphasis g) (normalize_key f) = Some fd ->
       one_line (FeatureEmphasis.focus fd) = true ->
       In ("Feature Emphasis: " ++ FeatureEmphasis.focus fd)
          (split_lines text)) /\
    (forall sd,
       dict_get (aesthetic_strength g) (normalize_key s) = Some sd ->
       one_line (AestheticStrength.approach sd) = true ->
       In ("Aesthetic Strength: " ++ AestheticStrength.approach sd)
          (split_lines text)).
Proof.
  unfold run. rewrite (get_enhancement_guidance_known g t a f s p Hp).
  eexists. split; [reflexivity|]. unfold guidance_body.
  split; [|split; [|split]].
  - intros H. apply line_skip. apply (line_skip _ "").
    now apply line_here_one_line.
  - intros ad -> H. apply line_skip. apply (line_skip _ "").
    apply line_skip2. now apply line_here_one_line.
  - intros fd -> H. apply line_skip. apply (line_skip _ "").
    do 2 apply line_skip2. now apply line_here_one_line.
  - intros sd -> H. apply line_skip. apply (line_skip _ "").
    do 3 apply line_skip2. now apply line_here_one_line.
Qed.

Lemma guidance_shows_the_records_found_witness :
  dict_get (imagery_profiles sample_olog) (normalize_key "LIDAR elevation")
  = Some (profile_of (fun id field => id ++ "." ++ field) "lidar_elevation") /\
  exists text,
    text_of (run (get_enhancement_guidance
                    "LIDAR elevation" "Low Altitude" "abstract" "subtle")
               sample_olog) = Some text /\
    In "Imagery Type: lidar_elevation.name" (split_lines text) /\
    In "Altitude Perspective: low_altitude.description" (split_lines text) /\
    In "Feature Emphasis: abstract.focus" (split_lines text) /\
    In "Aesthetic Strength: subtle.approach" (split_lines text).
Proof.
  split; [reflexivity|].
  destruct (guidance_shows_the_records_found sample_olog
              "LIDAR elevation" "Low Altitude" "abstract" "subtle" _ eq_refl)
    as (text & Hrun & Hname & Halt & Hfeat & Hstr).
  exists text. split; [exact Hrun|].
  split; [exact (Hname eq_refl)|].
  split; [exact (Halt _ eq_refl eq_refl)|].
  split; [exact (Hfeat _ eq_refl eq_refl) | exact (Hstr _ eq_refl eq_refl)].
Defined.

(** X17.  The two tools that take four identifiers agree on the profile:
    whenever [map_satellite_parameters] answers with a mapping,
    [get_enhancement_guidance] answers the same request with a text whose
    third line names the profile the mapping reports as [profile_name]. *)
Theorem guidance_names_the_mapped_profile (g : olog) (t a f s : string)
    (Hvalid : all_valid g t a f s = true) :
  exists payload text name rest,
    payload_of (run (map_satellite_parameters t a f s) g) = Some payload /\
    text_of (run (get_enhancement_guidance t a f s) g) = Some text /\
    member "profile_name" payload = Some (JStr name) /\
    text = "SATELLITE IMAGERY ENHANCEMENT GUIDANCE" ++ newline ++ newline
           ++ "Imagery Type: " ++ name ++ newline ++ rest.
Proof.
  destruct (map_satellite_parameters_cases g t a f s)
    as [(_ & p & ad & fd & sd & Hp & _ & _ & _ & ->) | (Hv & _)];
    [|congruence].
  unfold run. rewrite (get_enhancement_guidance_known g t a f s p Hp).
  eexists. eexists. exists (ImageryProfile.name p). eexists.
  split; [reflexivity|]. split; [reflexivity|]. split; reflexivity.
Qed.

Lemma guidance_names_the_mapped_profile_witness :
  all_valid sample_olog "Thermal Infrared" "high altitude" "Urban" "SUBTLE"
  = true /\
  exists payload text name rest,
    payload_of (run (map_satellite_parameters
                       "Thermal Infrared" "high altitude" "Urban" "SUBTLE")
                    sample_olog) = Some payload /\
    text_of (run (get_enhancement_guidance
                    "Thermal Infrared" "high altitude" "Urban" "SUBTLE")
               sample_olog) = Some text /\
    member "profile_name" payload = Some (JStr name) /\
    text = "SATELLITE IMAGERY ENHANCEMENT GUIDANCE" ++ newline ++ newline
           ++ "Imagery Type: " ++ name ++ newline ++ rest.
Proof.
  split; [reflexivity|].
  exact (guidance_names_the_mapped_profile sample_olog
           "Thermal Infrared" "high altitude" "Urban" "SUBTLE" eq_refl).
Defined.

(** ** What the test-suite guarantees of the tools *)

Lemma same_set_In (xs ys : list string) :
  TestServer.same_set xs ys = true -> forall k, In k xs <-> In k ys.
Proof.
  unfold TestServer.same_set. rewrite andb_true_iff, !forallb_forall.
  intros [Hxy Hyx] k. split; intros Hk.
  - apply Hxy, existsb_exists in Hk. destruct Hk as (y & Hy & E).
    apply String.eqb_eq in E. now subst.
  - apply Hyx, existsb_exists in Hk. destruct Hk as (x & Hx & E).
    apply String.eqb_eq in E. now subst.
Qed.

Lemma count_is_get (g : olog) (k : string) (n : Z) (sd : AestheticStrength.t) :
  TestServer.count_is g k n = true ->
  dict_get (aesthetic_strength g) k = Some sd ->
  AestheticStrength.characteristics sd = n.
Proof.
  unfold TestServer.count_is. intros H E. rewrite E in H.
  now apply Z.eqb_eq.
Qed.

(** X18.  On tables that pass [test_all_strengths_present] and
    [test_characteristic_counts], every mapping selects 2, 4 or 6
    characteristics, as many as the [characteristic_count] it reports. *)
Theorem tested_counts_bound_the_selection
    (g : olog) (t a f s : string)
    (Hpresent : TestServer.test_all_strengths_present g = true)
    (Hcounts : TestServer.test_characteristic_counts g = true)
    (Hvalid : all_valid g t a f s = true) :
  exists payload selected N,
    payload_of (run (map_satellite_parameters t a f s) g) = Some payload /\
    entries "selected_characteristics" payload = Some selected /\
    member2 "aesthetic_strength" "characteristic_count" payload
    = Some (JInt N) /\
    Z.of_nat (length selected) = N /\
    (N = 2 \/ N = 4 \/ N = 6)%Z.
Proof.
  destruct (map_satellite_parameters_cases g t a f s)
    as [(_ & p & ad & fd & sd & _ & _ & _ & Hs & ->) | (Hv & _)];
    [|congruence].
  destruct (mapped_parameters_selection (normalize_key t) (normalize_key a)
              (normalize_key f) (normalize_key s) p ad fd sd)
    as (_ & Hsel & Hlen).
  assert (HN : (AestheticStrength.characteristics sd = 2
                \/ AestheticStrength.characteristics sd = 4
                \/ AestheticStrength.characteristics sd = 6)%Z).
  { unfold TestServer.test_all_strengths_present in Hpresent.
    apply andb_true_iff in Hpresent. destruct Hpresent as [_ Hset].
    pose proof (dict_get_mem _ _ _ Hs) as Hin.
    apply dict_mem_In, (same_set_In _ _ Hset) in Hin.
    unfold TestServer.test_characteristic_counts in Hcounts.
    rewrite !andb_true_iff in Hcounts. destruct Hcounts as [[H2 H4] H6].
    simpl in Hin. destruct Hin as [E | [E | [E | []]]]; rewrite <- E in Hs.
    - left. exact (count_is_get g _ _ sd H2 Hs).
    - right; left. exact (count_is_get g _ _ sd H4 Hs).
    - right; right. exact (count_is_get g _ _ sd H6 Hs). }
  eexists. eexists. exists (AestheticStrength.characteristics sd).
  split; [reflexivity|]. split; [exact Hsel|].
  split; [apply mapped_parameters_ids|]. split; [|exact HN].
  rewrite slice_to_length, Hlen.
  destruct (Z.ltb_spec (AestheticStrength.characteristics sd) 0); lia.
Qed.

Lemma tested_counts_bound_the_selection_witness :
  TestServer.test_all_strengths_present sample_olog = true /\
  TestServer.test_characteristic_counts sample_olog = true /\
  all_valid sample_olog "true color rgb" "orbital" "natural" "Balanced" = true /\
  exists payload selected N,
    payload_of (run (map_satellite_parameters
                       "true color rgb" "orbital" "natural" "Balanced")
                    sample_olog) = Some payload /\
    entries "selected_characteristics" payload = Some selected /\
    member2 "aesthetic_strength" "characteristic_count" payload
    = Some (JInt N) /\
    Z.of_nat (length selected) = N /\
    (N = 2 \/ N = 4 \/ N = 6)%Z.
Proof.
  split; [reflexivity|]. split; [reflexivity|]. split; [reflexivity|].
  exact (tested_counts_bound_the_selection sample_olog
           "true color rgb" "orbital" "natural" "Balanced"
           eq_refl eq_refl eq_refl).
Defined.


